(** * Catalog browser front end: pagination window, API client, product form

    A shallow embedding of the TypeScript sources
      - [components/Pagination] ([getPageNumbers]),
      - [services/api.ts] ([ProductApi.request], [getProducts], [getProduct]),
      - [components/ProductDetail.tsx] (error branch and price block),
      - [components/ProductForm.tsx] ([validateForm], [handleSubmit]),
      - [pages/ProductList] ([handleFiltersChange], [handleSortChange]),
    and the properties the specification states about them.

    Conventions.  Page numbers are integers ([Z]).  JavaScript arrays that
    are only ever appended to are lists, [push] adds at the end.  Objects
    that are iterated with [Object.entries] are lists of key/value pairs in
    insertion order; objects used as dictionaries are [gmap string _].
    Numbers are binary64 values held as the rationals they equal, and
    subtraction and division round to the nearest one, ties to even.  Text
    is held as its UTF-8 bytes. *)

From Stdlib Require Import ZArith QArith Qround Qabs Qpower Lia Lqa Ascii String.
From stdpp Require Import base list strings gmap fin_maps pretty sorting.

Open Scope Z_scope.

(** ** JavaScript helpers *)

(** [Array.prototype.push] on an array used as a growing sequence. *)
Definition push {A} (arr : list A) (x : A) : list A := arr ++ [x].

(** [for (let i = start; i <= stop; i++) acc = body i acc].
    The loop runs [stop - start + 1] times when [start <= stop] and not at
    all otherwise; [for_iter] counts the iterations down. *)
Fixpoint for_iter {A} (n : nat) (i : Z) (body : Z -> A -> A) (acc : A) : A :=
  match n with
  | O => acc
  | S n' => for_iter n' (i + 1) body (body i acc)
  end.

Definition for_loop {A} (start stop : Z) (body : Z -> A -> A) (acc : A) : A :=
  for_iter (Z.to_nat (stop - start + 1)) start body acc.

(** ** Pagination.tsx *)

Module Pagination.

(** An entry of the array returned by [getPageNumbers]: a page number or
    the string ['...']. *)
Inductive PageLabel : Type :=
  | Page (n : Z)
  | Ellipsis.


(** Body of the second loop: [if (i !== 1 && i !== totalPages) pages.push(i)]. *)
Definition window_body (totalPages : Z) (i : Z) (pages : list PageLabel) : list PageLabel :=
  if negb (i =? 1) && negb (i =? totalPages) then push pages (Page i) else pages.

(** [getPageNumbers], a closure over the props of the component; the two
    props it reads, [currentPage] and [totalPages], are made parameters. *)
Definition getPageNumbers (currentPage totalPages : Z) : list PageLabel :=
  let pages := [] in
  let maxVisible := 5 in
  if totalPages <=? maxVisible then
    for_loop 1 totalPages (fun i pages => push pages (Page i)) pages
  else
    let pages := push pages (Page 1) in
    let pages := if currentPage >? 3 then push pages Ellipsis else pages in
    let start := Z.max 2 (currentPage - 1) in
    let stop := Z.min (totalPages - 1) (currentPage + 1) in
    let pages := for_loop start stop (window_body totalPages) pages in
    let pages := if currentPage <? totalPages - 2 then push pages Ellipsis else pages in
    let pages := if totalPages >? 1 then push pages (Page totalPages) else pages in
    pages.

(** *** What the specification asks of the window *)

(** The page numbers of a label sequence, in order. *)
Fixpoint shownPages (labels : list PageLabel) : list Z :=
  match labels with
  | [] => []
  | Page n :: rest => n :: shownPages rest
  | Ellipsis :: rest => shownPages rest
  end.

(** The label sequence that shows the given pages with an ellipsis marker
    exactly between consecutive pages that differ by more than one. *)
Fixpoint markGaps (shown : list Z) : list PageLabel :=
  match shown with
  | [] => []
  | a :: rest =>
      Page a ::
      match rest with
      | [] => []
      | b :: _ => (if Z.abs (b - a) >? 1 then [Ellipsis] else []) ++ markGaps rest
      end
  end.

End Pagination.

(** ** JavaScript values *)

Module Js.

(** A number: a binary64 value, held as the rational it equals, one of the
    two infinities, or NaN.  [Num q] is a number of the language when [q]
    is a binary64 value; another rational stands for the binary64 value
    nearest to it, as a decimal literal does.  Arithmetic stores its
    operands and its result ([toDouble]).  The zero of the model is the
    positive zero. *)
Inductive number : Type :=
  | Num (q : Q)
  | PosInfinity
  | NegInfinity
  | NaN.

Definition Qlt_bool (a b : Q) : bool := negb (Qle_bool b a).

(** [a < b]; every comparison with NaN is false. *)
Definition lt (a b : number) : bool :=
  match a, b with
  | NaN, _ | _, NaN => false
  | Num p, Num q => Qlt_bool p q
  | _, NegInfinity => false
  | NegInfinity, _ => true
  | PosInfinity, _ => false
  | Num _, PosInfinity => true
  end.

(** [a > b] *)
Definition gt (a b : number) : bool := lt b a.

(** [a <= b] *)
Definition le (a b : number) : bool :=
  match a, b with
  | NaN, _ | _, NaN => false
  | _, _ => negb (lt b a)
  end.

(** *** Rounding to binary64

    The integer nearest to [x], the even one of the two when [x] lies half
    way between them. *)
Definition roundHalfEven (x : Q) : Z :=
  let n := Qfloor x in
  let r := (x - inject_Z n)%Q in
  if Qlt_bool r (1 # 2) then n
  else if Qlt_bool (1 # 2) r then n + 1
  else if Z.even n then n else n + 1.

(** The binary exponent of a positive [x]: the [e] with [2^e <= x < 2^(e+1)].
    The quotient of the leading powers of two of numerator and denominator
    is [e] or one above it. *)
Definition exponent (x : Q) : Z :=
  let k := Z.log2 (Qnum x) - Z.log2 (Z.pos (Qden x)) in
  if Qle_bool (2 ^ k) x then k else k - 1.

(** A positive real rounded to a significand of 53 bits, or to a multiple
    of [2^-1074] where it is subnormal; ties go to the even significand. *)
Definition roundPositive (a : Q) : Q :=
  let e := Z.max (exponent a - 52) (-1074) in
  (inject_Z (roundHalfEven (a / 2 ^ e)) * 2 ^ e)%Q.

(** The number a real result is stored as: the nearest binary64 value, an
    infinity when that is [2^1024] or more in absolute value. *)
Definition toDouble (x : Q) : number :=
  let x := Qred x in
  if Qeq_bool x 0 then Num 0
  else if Qlt_bool 0 x then
    let r := roundPositive x in
    if Qle_bool (2 ^ 1024) r then PosInfinity else Num (Qred r)
  else
    let r := roundPositive (- x) in
    if Qle_bool (2 ^ 1024) r then NegInfinity else Num (Qred (- r)).

(** [q] is a binary64 value: storing it changes nothing. *)
Definition isDouble (q : Q) : bool :=
  match toDouble q with
  | Num r => Qeq_bool r q
  | _ => false
  end.


(** The number of the language that a number of the model stands for: a
    rational that is no binary64 value stands for the nearest one, as a
    decimal literal does. *)
Definition asDouble (n : number) : number :=
  match n with
  | Num q => toDouble q
  | _ => n
  end.

(** [a - b] *)
Definition sub (a b : number) : number :=
  match asDouble a, asDouble b with
  | NaN, _ | _, NaN => NaN
  | Num p, Num q => toDouble (p - q)
  | PosInfinity, PosInfinity | NegInfinity, NegInfinity => NaN
  | PosInfinity, _ => PosInfinity
  | NegInfinity, _ => NegInfinity
  | Num _, PosInfinity => NegInfinity
  | Num _, NegInfinity => PosInfinity
  end.

(** [a / b]; a finite number divided by zero is an infinity of its sign,
    and [0 / 0] is NaN; otherwise the real quotient of the operands as
    stored is stored. *)
Definition div (a b : number) : number :=
  match a, asDouble b with
  | NaN, _ | _, NaN => NaN
  | Num p, Num q =>
      if Qeq_bool q 0 then
        if Qlt_bool 0 p then PosInfinity
        else if Qlt_bool p 0 then NegInfinity
        else NaN
      else
        match toDouble p with
        | Num p' => toDouble (p' / q)
        | PosInfinity => if Qlt_bool q 0 then NegInfinity else PosInfinity
        | NegInfinity => if Qlt_bool q 0 then PosInfinity else NegInfinity
        | NaN => NaN
        end
  | Num _, _ => Num 0
  | PosInfinity, Num q => if Qlt_bool q 0 then NegInfinity else PosInfinity
  | NegInfinity, Num q => if Qlt_bool q 0 then PosInfinity else NegInfinity
  | _, _ => NaN
  end.

Definition isFinite (n : number) : bool :=
  match n with Num _ => true | _ => false end.

(** The text of [x.toFixed(2)]: the number of hundredths nearest to the
    exact value of the binary64 value [x], the larger one on a tie of the
    absolute value; numbers that are not finite, or are at least [10^21] in
    absolute value, print as [String(x)]. *)
Inductive fixedText : Type :=
  | Fixed (hundredths : Z)
  | Unrounded (n : number).

Definition roundHundredths (q : Q) : Z :=
  if Qle_bool 0 q then Qfloor (q * 100 + (1 # 2))
  else (- Qfloor ((- q) * 100 + (1 # 2)))%Z.

Definition toFixed2 (n : number) : fixedText :=
  match asDouble n with
  | Num q =>
      if Qle_bool (inject_Z (10 ^ 21)) (Qabs q) then Unrounded (Num q)
      else Fixed (roundHundredths q)
  | other => Unrounded other
  end.


(** The values that occur in form state, filters and payloads. *)
Inductive value : Type :=
  | VUndefined
  | VNull
  | VBool (b : bool)
  | VNum (n : number)
  | VStr (s : string).

(** ToBoolean, as used by [if (x)], [!x] and [x && y]. *)
Definition truthy_number (n : number) : bool :=
  match n with
  | Num q => negb (Qeq_bool q 0)
  | NaN => false
  | _ => true
  end.

Definition truthy_string (s : string) : bool := negb (String.eqb s "").

Definition truthy (v : value) : bool :=
  match v with
  | VUndefined | VNull => false
  | VBool b => b
  | VNum n => truthy_number n
  | VStr s => truthy_string s
  end.

(** [value !== undefined && value !== null && value !== ''] *)
Definition is_present (v : value) : bool :=
  match v with
  | VUndefined => false
  | VNull => false
  | VStr s => negb (String.eqb s "")
  | _ => true
  end.

(** Text is held as UTF-8: a [string] is the sequence of bytes that encodes
    the JavaScript string.  [decodeChar c rest] reads the code point that
    starts at the byte [c] and returns it with the bytes that follow it.  A
    byte that starts no well-formed sequence reads as U+FFFD, as a UTF-8
    decoder reads it, and only that byte is consumed. *)
Definition isContinuation (b : N) : bool := ((128 <=? b) && (b <? 192))%N.

Definition decodeChar (c : ascii) (rest : string) : N * string :=
  let b0 := N_of_ascii c in
  let malformed := (65533%N, rest) in
  if (b0 <? 128)%N then (b0, rest)
  else if (b0 <? 192)%N then malformed
  else if (b0 <? 224)%N then
    match rest with
    | String c1 r1 =>
        let b1 := N_of_ascii c1 in
        let cp := ((b0 - 192) * 64 + (b1 - 128))%N in
        if isContinuation b1 && (128 <=? cp)%N then (cp, r1) else malformed
    | _ => malformed
    end
  else if (b0 <? 240)%N then
    match rest with
    | String c1 (String c2 r2) =>
        let b1 := N_of_ascii c1 in
        let b2 := N_of_ascii c2 in
        let cp := ((b0 - 224) * 4096 + (b1 - 128) * 64 + (b2 - 128))%N in
        if isContinuation b1 && isContinuation b2 && (2048 <=? cp)%N
        then (cp, r2) else malformed
    | _ => malformed
    end
  else if (b0 <? 248)%N then
    match rest with
    | String c1 (String c2 (String c3 r3)) =>
        let b1 := N_of_ascii c1 in
        let b2 := N_of_ascii c2 in
        let b3 := N_of_ascii c3 in
        let cp := ((b0 - 240) * 262144 + (b1 - 128) * 4096 + (b2 - 128) * 64
                   + (b3 - 128))%N in
        if isContinuation b1 && isContinuation b2 && isContinuation b3
           && (65536 <=? cp)%N && (cp <=? 1114111)%N
        then (cp, r3) else malformed
    | _ => malformed
    end
  else malformed.

(** The code points [String.prototype.trim] removes, WhiteSpace and
    LineTerminator of the language: TAB, LF, VT, FF, CR, SP, NBSP, U+1680,
    U+2000 to U+200A, LS, PS, U+202F, U+205F, U+3000 and U+FEFF. *)
Definition isWhiteSpace (cp : N) : bool :=
  (((9 <=? cp) && (cp <=? 13)) || (cp =? 32) || (cp =? 160) || (cp =? 5760)
   || ((8192 <=? cp) && (cp <=? 8202)) || (cp =? 8232) || (cp =? 8233)
   || (cp =? 8239) || (cp =? 8287) || (cp =? 12288) || (cp =? 65279))%N.

(** The code points of a text, in order.  Every step consumes at least one
    byte, so the length of the text bounds the number of steps. *)
Fixpoint codePoints_from (steps : nat) (s : string) : list N :=
  match steps, s with
  | S steps', String c rest =>
      let '(cp, after) := decodeChar c rest in
      cp :: codePoints_from steps' after
  | _, _ => []
  end.

Definition codePoints (s : string) : list N := codePoints_from (String.length s) s.

(** A string with a character that is not white space. *)
Definition hasVisibleChar (s : string) : bool :=
  existsb (fun cp => negb (isWhiteSpace cp)) (codePoints s).

(** [trimStart]: the text from its first character that is not white space. *)
Fixpoint trimStart_from (steps : nat) (s : string) : string :=
  match steps, s with
  | S steps', String c rest =>
      let '(cp, after) := decodeChar c rest in
      if isWhiteSpace cp then trimStart_from steps' after else s
  | _, _ => s
  end.

Definition trimStart (s : string) : string := trimStart_from (String.length s) s.

(** A text of white space only. *)
Definition isBlank (s : string) : bool := forallb isWhiteSpace (codePoints s).

(** [trimEnd]: the text without its longest ending of white space only.  A
    byte inside a character starts no white space, so the ending removed
    begins at a character. *)
Fixpoint trimEnd (s : string) : string :=
  match s with
  | EmptyString => EmptyString
  | String c rest => if isBlank s then EmptyString else String c (trimEnd rest)
  end.

Definition trim (s : string) : string := trimEnd (trimStart s).

Section ToString.

(** [Number::toString] on the finite numbers that are not integers below
    [10^21] in absolute value; the digits it prints are left open. *)
Variable digits : Q -> string.

Definition isSmallInteger (q : Q) : bool :=
  (Qnum q mod Z.pos (Qden q) =? 0)%Z && Qlt_bool (Qabs q) (inject_Z (10 ^ 21)).

Definition Number_toString (n : number) : string :=
  match n with
  | NaN => "NaN"
  | PosInfinity => "Infinity"
  | NegInfinity => "-Infinity"
  | Num q =>
      if isSmallInteger q then pretty (Qnum q / Z.pos (Qden q))%Z else digits q
  end.

(** [String(value)] *)
Definition String_ (v : value) : string :=
  match v with
  | VUndefined => "undefined"
  | VNull => "null"
  | VBool true => "true"
  | VBool false => "false"
  | VNum n => Number_toString n
  | VStr s => s
  end.

End ToString.

(** An object iterated with [Object.entries]: its own properties in
    insertion order. *)
Definition object : Type := list (string * value).

Definition Object_entries (o : object) : list (string * value) := o.

(** [arr.forEach(x => ...)] threading the state the callback updates. *)
Definition forEach {A S} (arr : list A) (callback : A -> S -> S) (state : S) : S :=
  fold_left (fun st x => callback x st) arr state.

(** A thrown or rejected error: its class name and message. *)
Record Error : Type := mkError {
  name : string;
  message : string
}.

(** A settled promise. *)
Inductive Promise (T : Type) : Type :=
  | Fulfilled (v : T)
  | Rejected (e : Error).

Arguments Fulfilled {T} v.
Arguments Rejected {T} e.

End Js.

(** ** types/product.ts *)

Module Product.

Record Product : Type := mk {
  id : Z;
  title : string;
  description : string;
  price : Js.number;
  discount_percentage : Js.number;
  discounted_price : Js.number;
  category : string;
  brand : string;
  rating : Js.number;
  stock : Js.number;
  thumbnail : string;
  images : list string;
  external_id : option Z;
  external_source : option string;
  is_active : bool;
  created_at : string;
  updated_at : string
}.

(** The invariant of the data model: [price > 0],
    [0 <= discountPercentage <= 100], [0 <= rating <= 5], [stock >= 0]. *)
Definition invariant (p : Product) : Prop :=
  exists a d r s,
    price p = Js.Num a /\ discount_percentage p = Js.Num d /\
    rating p = Js.Num r /\ stock p = Js.Num s /\
    (0 < a)%Q /\ (0 <= d)%Q /\ (d <= 100)%Q /\
    (0 <= r)%Q /\ (r <= 5)%Q /\ (0 <= s)%Q.

End Product.

(** The form state: [ProductCreate], with [images] held as the
    comma-separated text of the input. *)
Module ProductCreate.

Record ProductCreate : Type := mk {
  title : string;
  description : string;
  price : Js.number;
  discount_percentage : option Js.number;
  category : string;
  brand : option string;
  rating : option Js.number;
  stock : Js.number;
  thumbnail : option string;
  images : option string
}.

End ProductCreate.

Inductive SortOrder : Type := asc | desc.

Module ProductSort.

Record ProductSort : Type := mk {
  sort_by : string;
  sort_order : SortOrder
}.

End ProductSort.

Module ProductPagination.

Record ProductPagination : Type := mk {
  page : Z;
  size : Z
}.

End ProductPagination.

(** ** services/api.ts *)

Module ProductApi.

Definition API_BASE_URL : string := "http://localhost:8000/api/v1".

(** What [fetch] hands back for a request: it rejects (no connection,
    timeout, aborted), or it resolves with a response whatever its status.
    [json] is the outcome of [response.json()]. *)
Record Response (T : Type) : Type := mkResponse {
  status : Z;
  statusText : string;
  json : Js.Promise T
}.

Arguments mkResponse {T} _ _ _.
Arguments status {T} _.
Arguments statusText {T} _.
Arguments json {T} _.

(** [response.ok]: the status is in the range 200-299. *)
Definition ok {T} (response : Response T) : bool :=
  (200 <=? status response) && (status response <=? 299).

Inductive FetchResult (T : Type) : Type :=
  | FetchRejected (e : Js.Error)
  | FetchResolved (response : Response T).

Arguments FetchRejected {T} e.
Arguments FetchResolved {T} response.

(** The part of [RequestInit] the client sets. *)
Record RequestInit : Type := mkInit {
  method : option string;
  body : option string
}.

(** The default [options = {}]. *)
Definition noOptions : RequestInit := mkInit None None.

(** The network: what [fetch] hands back for a URL and its options. *)
Definition Fetch (T : Type) : Type := string -> RequestInit -> FetchResult T.

(** [request]; the headers it adds do not enter its result. *)
Definition request {T} (fetch : Fetch T) (endpoint : string) (options : RequestInit)
    : Js.Promise T :=
  let url := API_BASE_URL +:+ endpoint in
  match fetch url options with
  | FetchRejected e => Js.Rejected e
  | FetchResolved response =>
      if negb (ok response) then
        Js.Rejected
          (Js.mkError "Error"
             ("API request failed: " +:+ pretty (status response) +:+ " " +:+ statusText response))
      else json response
  end.

Definition getProduct {T} (fetch : Fetch T) (id : Z) : Js.Promise T :=
  request fetch ("/products/" +:+ pretty id) noOptions.

Definition deleteProduct {T} (fetch : Fetch T) (id : Z) : Js.Promise T :=
  request fetch ("/products/" +:+ pretty id) (mkInit (Some "DELETE") None).

Section Bodies.

(** [JSON.stringify] *)
Variable JSON_stringify : forall A : Type, A -> string.

Definition createProduct {T} (fetch : Fetch T) (productData : ProductCreate.ProductCreate)
    : Js.Promise T :=
  request fetch "/products" (mkInit (Some "POST") (Some (JSON_stringify _ productData))).

Definition updateProduct {T} (fetch : Fetch T) (id : Z) (productData : gmap string Js.value)
    : Js.Promise T :=
  request fetch ("/products/" +:+ pretty id)
          (mkInit (Some "PUT") (Some (JSON_stringify _ productData))).

End Bodies.

(** [URLSearchParams]: an ordered list of name/value pairs. *)
Definition URLSearchParams : Type := list (string * string).

Definition append (params : URLSearchParams) (name value : string) : URLSearchParams :=
  push params (name, value).

Definition sortOrderText (o : SortOrder) : string :=
  match o with asc => "asc" | desc => "desc" end.

Section GetProducts.

(** The digits [String] prints for a number (see [Js.Number_toString]). *)
Variable digits : Q -> string.

(** The percent-encoding applied by [URLSearchParams.prototype.toString]. *)
Variable urlencode : string -> string.

(** The callback of [Object.entries(filters).forEach]. *)
Definition appendFilter (entry : string * Js.value) (params : URLSearchParams) : URLSearchParams :=
  let '(key, value) := entry in
  if Js.is_present value then append params key (Js.String_ digits value) else params.

(** The [params] built by [getProducts]. *)
Definition getProducts_params
    (filters : option Js.object) (sort : option ProductSort.ProductSort)
    (pagination : option ProductPagination.ProductPagination) : URLSearchParams :=
  let params := [] in
  let params :=
    match filters with
    | Some filters => Js.forEach (Js.Object_entries filters) appendFilter params
    | None => params
    end in
  let params :=
    match sort with
    | Some sort =>
        let params :=
          if Js.truthy_string (ProductSort.sort_by sort)
          then append params "sort_by" (ProductSort.sort_by sort)
          else params in
        if Js.truthy_string (sortOrderText (ProductSort.sort_order sort))
        then append params "sort_order" (sortOrderText (ProductSort.sort_order sort))
        else params
    | None => params
    end in
  match pagination with
  | Some pagination =>
      let params := append params "page" (pretty (ProductPagination.page pagination)) in
      append params "size" (pretty (ProductPagination.size pagination))
  | None => params
  end.

(** [params.toString()] *)
Fixpoint toString (params : URLSearchParams) : string :=
  match params with
  | [] => ""
  | (name, value) :: rest =>
      urlencode name +:+ "=" +:+ urlencode value +:+
      match rest with
      | [] => ""
      | _ => "&" +:+ toString rest
      end
  end.

(** The endpoint [getProducts] requests. *)
Definition getProducts_endpoint
    (filters : option Js.object) (sort : option ProductSort.ProductSort)
    (pagination : option ProductPagination.ProductPagination) : string :=
  let queryString := toString (getProducts_params filters sort pagination) in
  "/products" +:+ (if Js.truthy_string queryString then "?" +:+ queryString else "").


End GetProducts.

(** A call a component makes on the client to change the store, with its
    arguments. *)
Inductive Call : Type :=
  | CreateProduct (productData : ProductCreate.ProductCreate)
  | UpdateProduct (id : Z) (productData : gmap string Js.value).

End ProductApi.

(** ** components/ProductDetail.tsx *)

Module ProductDetail.

(** What [useQuery] reports once the query has settled; a disabled query
    never runs and reports nothing. *)
Record QueryResult (T : Type) : Type := mkQuery {
  data : option T;
  error : option Js.Error;
  isLoading : bool
}.

Arguments mkQuery {T} _ _ _.
Arguments data {T} _.
Arguments error {T} _.
Arguments isLoading {T} _.

Definition useQuery {T} (enabled : bool) (settled : Js.Promise T) : QueryResult T :=
  if enabled then
    match settled with
    | Js.Fulfilled v => mkQuery (Some v) None false
    | Js.Rejected e => mkQuery None (Some e) false
    end
  else mkQuery None None false.

(** The three things the component can return. *)
Inductive View : Type :=
  | Spinner
  | ProductNotFound
  | Details (product : Product.Product).

(** The early returns of the component:
    [if (isLoading || isRefreshing)] and [if (error || !product)]. *)
Definition render (query : QueryResult Product.Product) (isRefreshing : bool) : View :=
  if isLoading query || isRefreshing then Spinner
  else
    match error query, data query with
    | Some _, _ => ProductNotFound
    | None, None => ProductNotFound
    | None, Some product => Details product
    end.

(** The component for the product [productId], once the request settled. *)
Definition ProductDetail
    (fetch : ProductApi.Fetch Product.Product) (productId : Z) : View :=
  let query :=
    useQuery (negb (productId =? 0)) (ProductApi.getProduct fetch productId) in
  render query false.

(** [1 - product.discount_percentage / 100] *)
Definition divisor (product : Product.Product) : Js.number :=
  Js.sub (Js.Num 1) (Js.div (Product.discount_percentage product) (Js.Num 100)).

(** [product.price / (1 - product.discount_percentage / 100)] *)
Definition preDiscount (product : Product.Product) : Js.number :=
  Js.div (Product.price product) (divisor product).

(** The price block: the price in large type and, under the guard
    [product.discount_percentage > 0], the struck-through price and the
    badge with the percentage. *)
Record PriceBlock : Type := mkPriceBlock {
  shownPrice : Js.number;
  struckThrough : option Js.fixedText;
  badge : option Js.number
}.

Definition priceBlock (product : Product.Product) : PriceBlock :=
  if Js.gt (Product.discount_percentage product) (Js.Num 0) then
    mkPriceBlock (Product.price product)
                 (Some (Js.toFixed2 (preDiscount product)))
                 (Some (Product.discount_percentage product))
  else mkPriceBlock (Product.price product) None None.

End ProductDetail.

(** ** components/ProductForm.tsx *)

Module ProductForm.

Import ProductCreate.

Inductive Mode : Type := create | edit.

Definition optional {A} (inj : A -> Js.value) (field : option A) : Js.value :=
  match field with
  | Some x => inj x
  | None => Js.VUndefined
  end.

(** [Object.entries(formData)]: the ten fields in the order the form state
    is created with. *)
Definition entries (formData : ProductCreate) : list (string * Js.value) :=
  [ ("title", Js.VStr (title formData));
    ("description", Js.VStr (description formData));
    ("price", Js.VNum (price formData));
    ("discount_percentage", optional Js.VNum (discount_percentage formData));
    ("category", Js.VStr (category formData));
    ("brand", optional Js.VStr (brand formData));
    ("rating", optional Js.VNum (rating formData));
    ("stock", Js.VNum (stock formData));
    ("thumbnail", optional Js.VStr (thumbnail formData));
    ("images", optional Js.VStr (images formData)) ].

(** [x && (x < lo || x > hi)] on an optional number. *)
Definition outOfRange (field : option Js.number) (lo hi : Q) : bool :=
  match field with
  | Some x =>
      Js.truthy_number x && (Js.lt x (Js.Num lo) || Js.gt x (Js.Num hi))
  | None => false
  end.

(** The [newErrors] object [validateForm] builds, keyed by field name. *)
Definition newErrors (formData : ProductCreate) : gmap string string :=
  let newErrors : gmap string string := ∅ in
  let newErrors :=
    if negb (Js.truthy_string (Js.trim (title formData)))
    then <["title" := "Title is required"]> newErrors else newErrors in
  let newErrors :=
    if negb (Js.truthy_string (Js.trim (description formData)))
    then <["description" := "Description is required"]> newErrors else newErrors in
  let newErrors :=
    if Js.le (price formData) (Js.Num 0)
    then <["price" := "Price must be greater than 0"]> newErrors else newErrors in
  let newErrors :=
    if outOfRange (discount_percentage formData) 0 100
    then <["discount_percentage" := "Discount must be between 0 and 100"]> newErrors
    else newErrors in
  let newErrors :=
    if negb (Js.truthy_string (category formData))
    then <["category" := "Category is required"]> newErrors else newErrors in
  let newErrors :=
    if Js.lt (stock formData) (Js.Num 0)
    then <["stock" := "Stock cannot be negative"]> newErrors else newErrors in
  let newErrors :=
    if outOfRange (rating formData) 0 5
    then <["rating" := "Rating must be between 0 and 5"]> newErrors else newErrors in
  newErrors.

(** [validateForm]: [Object.keys(newErrors).length === 0]. *)
Definition validateForm (formData : ProductCreate) : bool :=
  (size (newErrors formData) =? 0)%nat.

(** The callback that fills [cleanData]. *)
Definition keepPresent (entry : string * Js.value) (cleanData : gmap string Js.value)
    : gmap string Js.value :=
  let '(key, value) := entry in
  if Js.is_present value then <[key := value]> cleanData else cleanData.

Definition cleanData (formData : ProductCreate) : gmap string Js.value :=
  Js.forEach (entries formData) keepPresent ∅.

(** [handleSubmit]: the calls made to the API client. *)
Definition handleSubmit (mode : Mode) (product : option Product.Product)
    (formData : ProductCreate) : list ProductApi.Call :=
  if negb (validateForm formData) then []
  else
    match mode with
    | create => [ProductApi.CreateProduct formData]
    | edit =>
        match product with
        | Some product =>
            [ProductApi.UpdateProduct (Product.id product) (cleanData formData)]
        | None => []
        end
    end.

End ProductForm.

(** ** The store behind the update call *)

Module Store.

(** Modelled from the spec: the partial-update call of the store, which is
    not part of the front end.  "Only supplied fields change, [updatedAt]
    refreshed": the supplied fields overwrite the record's, every other
    field keeps its value, and [updated_at] is set to the time of the call. *)
Definition update (payload : gmap string Js.value) (now : Js.value)
    (record : gmap string Js.value) : gmap string Js.value :=
  <["updated_at" := now]> (payload ∪ record).

End Store.

(** ** pages/ProductList.tsx *)

Module ProductList.

Inductive ViewMode : Type := grid | list_.

(** The state of the listing view. *)
Record State : Type := mkState {
  viewMode : ViewMode;
  filters : Js.object;
  sortBy : string;
  sortOrder : SortOrder;
  currentPage : Z;
  pageSize : Z
}.

Definition setFilters (v : Js.object) (s : State) : State :=
  mkState (viewMode s) v (sortBy s) (sortOrder s) (currentPage s) (pageSize s).

Definition setSortBy (v : string) (s : State) : State :=
  mkState (viewMode s) (filters s) v (sortOrder s) (currentPage s) (pageSize s).

Definition setSortOrder (v : SortOrder) (s : State) : State :=
  mkState (viewMode s) (filters s) (sortBy s) v (currentPage s) (pageSize s).

Definition setCurrentPage (v : Z) (s : State) : State :=
  mkState (viewMode s) (filters s) (sortBy s) (sortOrder s) v (pageSize s).

(** The state in which the component is next rendered after a handler that
    reads the values of the current render and queues the given updates. *)
Definition handleFiltersChange (newFilters : Js.object) (s : State) : State :=
  setCurrentPage 1 (setFilters newFilters s).

Definition handleSortChange (field : string) (s : State) : State :=
  let s' :=
    if String.eqb (sortBy s) field then
      setSortOrder (match sortOrder s with asc => desc | desc => asc end) s
    else
      setSortOrder asc (setSortBy field s) in
  setCurrentPage 1 s'.

Definition handlePageChange (page : Z) (s : State) : State :=
  setCurrentPage page s.

Definition sortParams (s : State) : ProductSort.ProductSort :=
  ProductSort.mk (sortBy s) (sortOrder s).

Definition paginationParams (s : State) : ProductPagination.ProductPagination :=
  ProductPagination.mk (currentPage s) (pageSize s).

(** The parameters of the request the [queryFn] makes in state [s]. *)
Definition requestParams (digits : Q -> string) (s : State) : ProductApi.URLSearchParams :=
  ProductApi.getProducts_params digits
    (Some (filters s)) (Some (sortParams s)) (Some (paginationParams s)).

End ProductList.

(** ** The invariants the specification puts on a submitted form *)

Module FormSpec.

Import ProductCreate.

(** From the specification: the input breaks an invariant of the data
    model on the named field ([price > 0], [0 <= discountPercentage <= 100],
    [0 <= rating <= 5], [stock >= 0]), its numeric fields being finite. *)
Inductive violates (formData : ProductCreate) : string -> Prop :=
  | violates_price q :
      price formData = Js.Num q -> (q <= 0)%Q ->
      violates formData "price"
  | violates_discount d :
      discount_percentage formData = Some (Js.Num d) -> (d < 0 \/ 100 < d)%Q ->
      violates formData "discount_percentage"
  | violates_rating r :
      rating formData = Some (Js.Num r) -> (r < 0 \/ 5 < r)%Q ->
      violates formData "rating"
  | violates_stock s :
      stock formData = Js.Num s -> (s < 0)%Q ->
      violates formData "stock".

(** An optional number that is left out or lies in [lo, hi]. *)
Definition within (field : option Js.number) (lo hi : Q) : Prop :=
  field = None \/ exists x, field = Some (Js.Num x) /\ (lo <= x)%Q /\ (x <= hi)%Q.

(** From the specification: all four invariants hold. *)
Definition invariants (formData : ProductCreate) : Prop :=
  (exists q, price formData = Js.Num q /\ (0 < q)%Q) /\
  within (discount_percentage formData) 0 100 /\
  within (rating formData) 0 5 /\
  (exists s, stock formData = Js.Num s /\ (0 <= s)%Q).

(** The names of the fields of the form. *)
Definition fields : list string :=
  ["title"; "description"; "price"; "discount_percentage"; "category";
   "brand"; "rating"; "stock"; "thumbnail"; "images"].

(** What a text field contributes to a payload: itself, or nothing when
    it is the empty string. *)
Definition sentText (s : string) : option Js.value :=
  if decide (s = "") then None else Some (Js.VStr s).

(** From the specification: the required texts are not empty. *)
Definition required_nonempty (formData : ProductCreate) : Prop :=
  title formData <> "" /\ description formData <> "" /\ category formData <> "".

(** The required texts as the form checks them: title and description
    have a character that is not white space, the category is not empty. *)
Definition required_filled (formData : ProductCreate) : Prop :=
  Js.hasVisibleChar (title formData) = true /\
  Js.hasVisibleChar (description formData) = true /\
  category formData <> "".

End FormSpec.

(** ** What the specification asks of errors and of shown prices *)

Module ErrorSpec.



End ErrorSpec.

Module PriceSpec.



End PriceSpec.

(** ** Sample data *)

Module Sample.

(** A form that meets every invariant and names all required texts. *)
Definition form : ProductCreate.ProductCreate :=
  ProductCreate.mk "Kettle" "Steel kettle" (Js.Num 25) (Some (Js.Num 10)) "kitchen"
                   (Some "") (Some (Js.Num 4)) (Js.Num 3) (Some "") (Some "").

(** The same form with a title of one space. *)
Definition blankTitleForm : ProductCreate.ProductCreate :=
  ProductCreate.mk " " "Steel kettle" (Js.Num 25) (Some (Js.Num 10)) "kitchen"
                   (Some "") (Some (Js.Num 4)) (Js.Num 3) (Some "") (Some "").

(** The same form with any title, and three titles of one character: EM
    SPACE (U+2003), IDEOGRAPHIC SPACE (U+3000) and ZERO WIDTH SPACE
    (U+200B), which is not white space. *)
Definition titled (title : string) : ProductCreate.ProductCreate :=
  ProductCreate.mk title "Steel kettle" (Js.Num 25) (Some (Js.Num 10)) "kitchen"
                   (Some "") (Some (Js.Num 4)) (Js.Num 3) (Some "") (Some "").

Definition emSpace : string :=
  String "226"%char (String "128"%char (String "131"%char "")).

Definition ideographicSpace : string :=
  String "227"%char (String "128"%char (String "128"%char "")).

Definition zeroWidthSpace : string :=
  String "226"%char (String "128"%char (String "139"%char "")).

(** The same form with a negative price. *)
Definition negativePriceForm : ProductCreate.ProductCreate :=
  ProductCreate.mk "Kettle" "Steel kettle" (Js.Num (-1)) (Some (Js.Num 10)) "kitchen"
                   (Some "") (Some (Js.Num 4)) (Js.Num 3) (Some "") (Some "").

(** The same form after the price input was cleared: the number input
    reports NaN. *)
Definition clearedPriceForm : ProductCreate.ProductCreate :=
  ProductCreate.mk "Kettle" "Steel kettle" Js.NaN (Some (Js.Num 10)) "kitchen"
                   (Some "") (Some (Js.Num 4)) (Js.Num 3) (Some "") (Some "").

Definition product (price discount_percentage : Js.number) : Product.Product :=
  Product.mk 7 "Kettle" "Steel kettle" price discount_percentage (Js.Num 0)
             "kitchen" "Acme" (Js.Num 4) (Js.Num 3) "" [] None None true
             "2025-01-01T00:00:00" "2025-01-01T00:00:00".

(** The number the literal [2.53] denotes, and the largest number below
    100, [99.99999999999999]. *)
Definition price_2_53 : Q := 5697053528623677 # 2251799813685248.

(** A stored record whose brand is set. *)
Definition record : gmap string Js.value :=
  {[ "title" := Js.VStr "Kettle"; "brand" := Js.VStr "Acme" ]}.

(** The network answering every request with a given status and no body,
    and the network that cannot be reached. *)
Definition answering (status : Z) (statusText : string)
    : ProductApi.Fetch Product.Product :=
  fun _ _ =>
    ProductApi.FetchResolved
      (ProductApi.mkResponse status statusText
         (Js.Rejected (Js.mkError "SyntaxError" "Unexpected end of JSON input"))).



(** Filters with a search text, an empty category, [in_stock] false, a
    minimal price of 0 and no maximal price. *)
Definition filters : Js.object :=
  [ ("search", Js.VStr "phone"); ("category", Js.VStr "");
    ("in_stock", Js.VBool false); ("min_price", Js.VNum (Js.Num 0));
    ("max_price", Js.VUndefined) ].

End Sample.

(** ** More of JavaScript: property access and strict equality *)

Module JsObject.

(** [o[key]], [None] standing for a property that is not there. *)
Fixpoint get (o : Js.object) (key : string) : option Js.value :=
  match o with
  | [] => None
  | (k, x) :: rest => if String.eqb k key then Some x else get rest key
  end.

(** [{ ...o, [key]: value }]: an existing property keeps its place and
    takes the new value, a new one goes to the end. *)
Fixpoint set (o : Js.object) (key : string) (value : Js.value) : Js.object :=
  match o with
  | [] => [(key, value)]
  | (k, x) :: rest =>
      if String.eqb k key then (k, value) :: rest else (k, x) :: set rest key value
  end.

(** [Object.values(o)] *)
Definition values (o : Js.object) : list Js.value := o.*2.

(** [a === b] *)
Definition strict_equal (a b : Js.value) : bool :=
  match a, b with
  | Js.VUndefined, Js.VUndefined => true
  | Js.VNull, Js.VNull => true
  | Js.VBool x, Js.VBool y => Bool.eqb x y
  | Js.VStr x, Js.VStr y => String.eqb x y
  | Js.VNum (Js.Num p), Js.VNum (Js.Num q) => Qeq_bool p q
  | Js.VNum Js.PosInfinity, Js.VNum Js.PosInfinity => true
  | Js.VNum Js.NegInfinity, Js.VNum Js.NegInfinity => true
  | _, _ => false
  end.

(** [arr.join(separator)] on an array of strings. *)
Fixpoint join (separator : string) (arr : list string) : string :=
  match arr with
  | [] => ""
  | [x] => x
  | x :: rest => x +:+ separator +:+ join separator rest
  end.

End JsObject.

(** ** components/ProductFilters.tsx *)

Module ProductFilters.

Definition handleFilterChange (key : string) (value : Js.value) (localFilters : Js.object)
    : Js.object :=
  JsObject.set localFilters key value.

(** [applyFilters]: the list view passes its [handleFiltersChange] as
    [onFiltersChange]. *)
Definition applyFilters (localFilters : Js.object) (s : ProductList.State) : ProductList.State :=
  ProductList.handleFiltersChange localFilters s.

Definition clearedFilters : Js.object :=
  [ ("search", Js.VStr "");
    ("category", Js.VStr "");
    ("brand", Js.VStr "");
    ("min_price", Js.VUndefined);
    ("max_price", Js.VUndefined);
    ("min_rating", Js.VUndefined);
    ("in_stock", Js.VUndefined) ].

(** [clearFilters]: the new local filters and the state of the list view. *)
Definition clearFilters (s : ProductList.State) : Js.object * ProductList.State :=
  (clearedFilters, ProductList.handleFiltersChange clearedFilters s).

(** [value !== '' && value !== false && value !== 0] *)
Definition isActive (value : Js.value) : bool :=
  negb (JsObject.strict_equal value (Js.VStr ""))
  && negb (JsObject.strict_equal value (Js.VBool false))
  && negb (JsObject.strict_equal value (Js.VNum (Js.Num 0))).

Definition hasActiveFilters (filters : Js.object) : bool :=
  existsb isActive (JsObject.values filters).

End ProductFilters.

(** ** The rating stars of the card and of the detail view *)

Module Rating.

(** [[1, 2, 3, 4, 5].map(star => star <= rating)]: the stars drawn filled. *)
Definition stars (rating : Js.number) : list bool :=
  (fun star : Z => Js.le (Js.Num (inject_Z star)) rating) <$> [1; 2; 3; 4; 5].

End Rating.

(** ** The stock line and the cart button of the detail view *)

Module Stock.

Inductive StockText : Type :=
  | Available (n : Js.number)
  | OutOfStock.

(** [product.stock > 0 ? `${product.stock} available` : 'Out of stock'] *)
Definition stockText (product : Product.Product) : StockText :=
  if Js.gt (Product.stock product) (Js.Num 0) then Available (Product.stock product)
  else OutOfStock.

(** [isDisabled={product.stock === 0}] *)
Definition cartDisabled (product : Product.Product) : bool :=
  JsObject.strict_equal (Js.VNum (Product.stock product)) (Js.VNum (Js.Num 0)).

Inductive CartText : Type :=
  | AddedToCart
  | AddToCart
  | CartOutOfStock.

(** [isInCart ? 'Added to Cart' : product.stock > 0 ? 'Add to Cart' : 'Out of Stock'] *)
Definition cartText (isInCart : bool) (product : Product.Product) : CartText :=
  if isInCart then AddedToCart
  else if Js.gt (Product.stock product) (Js.Num 0) then AddToCart
  else CartOutOfStock.

End Stock.

(** ** contexts/ThemeContext.tsx *)

Module ThemeContext.

Inductive Theme : Type := light | dark | system.

(** The string a theme is at run time. *)
Definition themeText (theme : Theme) : string :=
  match theme with
  | light => "light"
  | dark => "dark"
  | system => "system"
  end.

(** The theme a string is, if it is one. *)
Definition asTheme (s : string) : option Theme :=
  if String.eqb s "light" then Some light
  else if String.eqb s "dark" then Some dark
  else if String.eqb s "system" then Some system
  else None.

(** The initialiser of the theme state, from
    [localStorage.getItem('theme')]. *)
Definition initialTheme (savedTheme : option string) : Theme :=
  match savedTheme with
  | Some saved =>
      if Js.truthy_string saved
         && existsb (String.eqb saved) ["light"; "dark"; "system"]
      then default system (asTheme saved)
      else system
  | None => system
  end.

Definition toggleTheme (prev : Theme) : Theme :=
  match prev with
  | light => dark
  | dark => system
  | system => light
  end.

(** What the effect on [theme] leaves behind: the colour mode handed to
    the component library, [isDark], and the item in local storage. *)
Record Applied : Type := mkApplied {
  colorMode : string;
  isDark : bool;
  storedTheme : string
}.

Definition applyTheme (theme : Theme) (systemPrefersDark : bool) : Applied :=
  match theme with
  | system =>
      mkApplied (if systemPrefersDark then "dark" else "light") systemPrefersDark
                (themeText theme)
  | _ =>
      mkApplied (themeText theme)
                (match theme with dark => true | _ => false end)
                (themeText theme)
  end.

End ThemeContext.

(** ** A toast of the component library *)

Record Toast : Type := mkToast {
  toastTitle : string;
  toastDescription : string;
  toastStatus : string
}.

(** The double-quote character. *)
Definition quote : string := String (Ascii.ascii_of_nat 34) EmptyString.

(** ** components/DeleteProduct.tsx *)

Module DeleteProduct.

Record State : Type := mkState {
  isLoading : bool;
  isOpen : bool
}.

(** What the handler does that its surroundings see. *)
Inductive Effect : Type :=
  | ShowToast (t : Toast)
  | OnSuccess.

(** [handleDelete], run to its end: the state it leaves and what it did. *)
Definition handleDelete {T} (fetch : ProductApi.Fetch T) (product : Product.Product)
    (st : State) : State * list Effect :=
  match ProductApi.deleteProduct fetch (Product.id product) with
  | Js.Fulfilled _ =>
      (mkState false false,
       [ ShowToast
           (mkToast "Product deleted successfully"
              (quote +:+ Product.title product +:+ quote
               +:+ " has been removed from your catalog.")
              "success");
         OnSuccess ])
  | Js.Rejected error =>
      (mkState false (isOpen st),
       [ ShowToast (mkToast "Failed to delete product" (Js.message error) "error") ])
  end.

End DeleteProduct.

(** ** components/ProductForm.tsx: the state of the form and a whole submission *)

Module ProductFormState.

(** The form the component starts with, and [resetForm] returns to. *)
Definition initialFormData : ProductCreate.ProductCreate :=
  ProductCreate.mk "" "" (Js.Num 0) (Some (Js.Num 0)) "" (Some "") (Some (Js.Num 0))
                   (Js.Num 0) (Some "") (Some "").

(** The form the edit mode starts with for a product. *)
Definition formOfProduct (product : Product.Product) : ProductCreate.ProductCreate :=
  ProductCreate.mk
    (Product.title product)
    (Product.description product)
    (Product.price product)
    (Some (Product.discount_percentage product))
    (Product.category product)
    (Some (if Js.truthy_string (Product.brand product) then Product.brand product else ""))
    (Some (Product.rating product))
    (Product.stock product)
    (Some (Product.thumbnail product))
    (Some (JsObject.join ", " (Product.images product))).

Record State : Type := mkState {
  formData : ProductCreate.ProductCreate;
  errors : gmap string string;
  isLoading : bool;
  isOpen : bool
}.

Inductive Effect : Type :=
  | Request (call : ProductApi.Call)
  | ShowToast (t : Toast)
  | OnSuccess.

(** The state after [onSuccess(); onClose(); resetForm()] and the
    [finally] block. *)
Definition closedAndReset : State := mkState initialFormData ∅ false false.

(** The [catch] block and the [finally] block. *)
Definition failed (mode : ProductForm.Mode) (error : Js.Error) (st : State) : State * list Effect :=
  (mkState (formData st) (ProductForm.newErrors (formData st)) false (isOpen st),
   [ ShowToast
       (mkToast
          (match mode with
           | ProductForm.create => "Failed to create product"
           | ProductForm.edit => "Failed to update product"
           end)
          (Js.message error) "error") ]).

(** [handleSubmit], run to its end against a client that answers each call
    with a settled promise. *)
Definition handleSubmit (client : ProductApi.Call -> Js.Promise Product.Product)
    (mode : ProductForm.Mode) (product : option Product.Product) (st : State)
    : State * list Effect :=
  if negb (ProductForm.validateForm (formData st)) then
    (mkState (formData st) (ProductForm.newErrors (formData st)) (isLoading st) (isOpen st), [])
  else
    match mode with
    | ProductForm.create =>
        let call := ProductApi.CreateProduct (formData st) in
        match client call with
        | Js.Fulfilled _ =>
            (closedAndReset,
             [ Request call;
               ShowToast (mkToast "Product created successfully"
                            "The product has been added to your catalog." "success");
               OnSuccess ])
        | Js.Rejected error =>
            let '(st', effects) := failed mode error st in (st', Request call :: effects)
        end
    | ProductForm.edit =>
        match product with
        | Some product =>
            let call :=
              ProductApi.UpdateProduct (Product.id product)
                                       (ProductForm.cleanData (formData st)) in
            match client call with
            | Js.Fulfilled _ =>
                (closedAndReset,
                 [ Request call;
                   ShowToast (mkToast "Product updated successfully"
                                "The product has been updated." "success");
                   OnSuccess ])
            | Js.Rejected error =>
                let '(st', effects) := failed mode error st in (st', Request call :: effects)
            end
        | None => (closedAndReset, [OnSuccess])
        end
    end.

(** The calls among the effects. *)
Fixpoint requests (effects : list Effect) : list ProductApi.Call :=
  match effects with
  | [] => []
  | Request call :: rest => call :: requests rest
  | _ :: rest => requests rest
  end.

(** The client of [services/api.ts] over a network. *)
Definition client (JSON_stringify : forall A : Type, A -> string)
    (fetch : ProductApi.Fetch Product.Product) (call : ProductApi.Call)
    : Js.Promise Product.Product :=
  match call with
  | ProductApi.CreateProduct productData =>
      ProductApi.createProduct JSON_stringify fetch productData
  | ProductApi.UpdateProduct id productData =>
      ProductApi.updateProduct JSON_stringify fetch id productData
  end.

End ProductFormState.

(** * Theorems *)

Import Pagination.

Lemma for_loop_unfold {A} (start stop : Z) (body : Z -> A -> A) (acc : A) :
  for_loop start stop body acc =
  if start <=? stop then for_loop (start + 1) stop body (body start acc) else acc.
Proof.
  unfold for_loop. destruct (Z.leb_spec start stop) as [Hle|Hgt].
  - replace (Z.to_nat (stop - start + 1)) with (S (Z.to_nat (stop - (start + 1) + 1))) by lia.
    reflexivity.
  - replace (Z.to_nat (stop - start + 1)) with O by lia. reflexivity.
Qed.

Lemma for_iter_push_all (n : nat) (i : Z) (acc : list PageLabel) :
  for_iter n i (fun i pages => push pages (Page i)) acc
  = acc ++ (Page <$> seqZ i (Z.of_nat n)).
Proof.
  revert i acc. induction n as [|n IH]; intros i acc.
  - simpl. by rewrite app_nil_r.
  - cbn [for_iter]. rewrite IH. unfold push.
    rewrite (seqZ_cons i (Z.of_nat (S n))) by lia.
    rewrite fmap_cons, <- app_assoc. simpl.
    replace (Z.pred (Z.of_nat (S n))) with (Z.of_nat n) by lia.
    reflexivity.
Qed.

Lemma for_iter_window (t : Z) (n : nat) (i : Z) (acc : list PageLabel) :
  1 < i -> i + Z.of_nat n <= t ->
  for_iter n i (window_body t) acc = acc ++ (Page <$> seqZ i (Z.of_nat n)).
Proof.
  revert i acc. induction n as [|n IH]; intros i acc Hi Hn.
  - simpl. by rewrite app_nil_r.
  - cbn [for_iter]. rewrite IH by lia. unfold window_body, push.
    destruct (Z.eqb_spec i 1) as [?|_]; [lia|].
    destruct (Z.eqb_spec i t) as [?|_]; [lia|]. cbn [negb andb].
    rewrite (seqZ_cons i (Z.of_nat (S n))) by lia.
    rewrite fmap_cons, <- app_assoc. simpl.
    replace (Z.pred (Z.of_nat (S n))) with (Z.of_nat n) by lia.
    reflexivity.
Qed.

Lemma getPageNumbers_small (c t : Z) :
  t <= 5 -> getPageNumbers c t = Page <$> seqZ 1 t.
Proof.
  intros Ht. unfold getPageNumbers.
  destruct (Z.leb_spec t 5) as [_|?]; [|lia].
  unfold for_loop. rewrite for_iter_push_all. simpl.
  destruct (Z.le_gt_cases 0 t).
  - do 2 f_equal. lia.
  - replace (Z.to_nat (t - 1 + 1)) with O by lia. simpl.
    by rewrite seqZ_nil by lia.
Qed.

Lemma getPageNumbers_large (c t : Z) :
  5 < t -> 1 <= c <= t ->
  getPageNumbers c t =
  [Page 1] ++ (if c >? 3 then [Ellipsis] else [])
  ++ (Page <$> seqZ (Z.max 2 (c - 1)) (Z.min (t - 1) (c + 1) - Z.max 2 (c - 1) + 1))
  ++ (if c <? t - 2 then [Ellipsis] else []) ++ [Page t].
Proof.
  intros Ht Hc. unfold getPageNumbers.
  destruct (Z.leb_spec t 5) as [?|_]; [lia|].
  unfold for_loop. rewrite for_iter_window by lia.
  rewrite Z2Nat.id by lia.
  destruct (Z.gtb_spec t 1) as [_|?]; [|lia].
  unfold push. simpl.
  destruct (c >? 3), (c <? t - 2); simpl; by rewrite <- ?app_assoc.
Qed.

Lemma seqZ_one (m : Z) : seqZ m 1 = [m].
Proof. rewrite seqZ_cons by lia. by rewrite seqZ_nil by lia. Qed.

Lemma seqZ_two (m : Z) : seqZ m 2 = [m; m + 1].
Proof. rewrite seqZ_cons by lia. change (Z.pred 2) with 1. by rewrite seqZ_one. Qed.

Lemma seqZ_three (m : Z) : seqZ m 3 = [m; m + 1; m + 1 + 1].
Proof. rewrite seqZ_cons by lia. change (Z.pred 3) with 2. by rewrite seqZ_two. Qed.

Ltac decide_comparisons :=
  repeat match goal with
  | |- context [?a >? ?b] => destruct (Z.gtb_spec a b); try lia
  | |- context [?a <? ?b] => destruct (Z.ltb_spec a b); try lia
  end.

Lemma getPageNumbers_marks_gaps (c t : Z) :
  5 < t -> 1 <= c <= t ->
  getPageNumbers c t = markGaps (shownPages (getPageNumbers c t)).
Proof.
  intros Ht Hc. rewrite getPageNumbers_large by done.
  assert (c = 1 \/ c = 2 \/ c = 3 \/ (4 <= c <= t - 3) \/ c = t - 2 \/ c = t - 1 \/ c = t)
    as Hcase by lia.
  destruct Hcase as [-> | [-> | [-> | [Hmid | [-> | [-> | ->] ] ] ] ] ].
  - replace (Z.max 2 (1 - 1)) with 2 by lia.
    replace (Z.min (t - 1) (1 + 1) - 2 + 1) with 1 by lia.
    rewrite ?seqZ_one, ?seqZ_two, ?seqZ_three. by repeat (progress (cbn; decide_comparisons)).
  - replace (Z.max 2 (2 - 1)) with 2 by lia.
    replace (Z.min (t - 1) (2 + 1) - 2 + 1) with 2 by lia.
    rewrite ?seqZ_one, ?seqZ_two, ?seqZ_three. by repeat (progress (cbn; decide_comparisons)).
  - replace (Z.max 2 (3 - 1)) with 2 by lia.
    replace (Z.min (t - 1) (3 + 1) - 2 + 1) with 3 by lia.
    rewrite ?seqZ_one, ?seqZ_two, ?seqZ_three. by repeat (progress (cbn; decide_comparisons)).
  - replace (Z.max 2 (c - 1)) with (c - 1) by lia.
    replace (Z.min (t - 1) (c + 1) - (c - 1) + 1) with 3 by lia.
    rewrite ?seqZ_one, ?seqZ_two, ?seqZ_three. by repeat (progress (cbn; decide_comparisons)).
  - replace (Z.max 2 (t - 2 - 1)) with (t - 3) by lia.
    replace (Z.min (t - 1) (t - 2 + 1) - (t - 3) + 1) with 3 by lia.
    rewrite ?seqZ_one, ?seqZ_two, ?seqZ_three. by repeat (progress (cbn; decide_comparisons)).
  - replace (Z.max 2 (t - 1 - 1)) with (t - 2) by lia.
    replace (Z.min (t - 1) (t - 1 + 1) - (t - 2) + 1) with 2 by lia.
    rewrite ?seqZ_one, ?seqZ_two, ?seqZ_three. by repeat (progress (cbn; decide_comparisons)).
  - replace (Z.max 2 (t - 1)) with (t - 1) by lia.
    replace (Z.min (t - 1) (t + 1) - (t - 1) + 1) with 1 by lia.
    rewrite ?seqZ_one, ?seqZ_two, ?seqZ_three. by repeat (progress (cbn; decide_comparisons)).
Qed.

(** C1. For [1 <= currentPage <= totalPages]: up to five pages the labels
    are exactly [1 .. totalPages] in order; above five the sequence holds
    page 1, page [totalPages], every page of the window
    [currentPage-1 .. currentPage+1] that lies in [2 .. totalPages-1], and
    an ellipsis exactly between consecutive shown pages that differ by more
    than one (the sequence is [markGaps] of its own page numbers). *)
Theorem getPageNumbers_window_spec (c t : Z) :
  1 <= c <= t ->
  (t <= 5 -> getPageNumbers c t = Page <$> seqZ 1 t) /\
  (5 < t ->
     Page 1 ∈ getPageNumbers c t /\
     Page t ∈ getPageNumbers c t /\
     (forall i, c - 1 <= i <= c + 1 -> 2 <= i <= t - 1 -> Page i ∈ getPageNumbers c t) /\
     getPageNumbers c t = markGaps (shownPages (getPageNumbers c t))).
Proof.
  intros Hc. split.
  - apply getPageNumbers_small.
  - intros Ht. split; [|split; [|split]].
    + rewrite getPageNumbers_large by done. apply elem_of_app. left. apply list_elem_of_singleton. done.
    + rewrite getPageNumbers_large by done.
      rewrite !elem_of_app. do 4 right. by apply list_elem_of_singleton.
    + intros i Hi1 Hi2. rewrite getPageNumbers_large by done.
      rewrite !elem_of_app. right; right; left.
      apply list_elem_of_fmap_2, elem_of_seqZ. lia.
    + by apply getPageNumbers_marks_gaps.
Qed.

Lemma getPageNumbers_window_spec_witness :
  1 <= 5 <= 10 /\
  (10 <= 5 -> getPageNumbers 5 10 = Page <$> seqZ 1 10) /\
  (5 < 10 ->
     Page 1 ∈ getPageNumbers 5 10 /\
     Page 10 ∈ getPageNumbers 5 10 /\
     (forall i, 5 - 1 <= i <= 5 + 1 -> 2 <= i <= 10 - 1 -> Page i ∈ getPageNumbers 5 10) /\
     getPageNumbers 5 10 = markGaps (shownPages (getPageNumbers 5 10))).
Proof. split; [lia | apply (getPageNumbers_window_spec 5 10); lia]. Defined.

(** C4. The two worked examples of the specification. *)
Theorem getPageNumbers_examples :
  getPageNumbers 5 10 = [Page 1; Ellipsis; Page 4; Page 5; Page 6; Ellipsis; Page 10] /\
  getPageNumbers 1 3 = [Page 1; Page 2; Page 3].
Proof. split; reflexivity. Qed.

(** ** Comparisons of numbers *)

Lemma Qlt_bool_iff (a b : Q) : Js.Qlt_bool a b = true <-> (a < b)%Q.
Proof.
  unfold Js.Qlt_bool. destruct (Qle_bool b a) eqn:E; simpl.
  - apply Qle_bool_iff in E. split; [discriminate|].
    intros Hlt. exfalso. exact (Qlt_not_le _ _ Hlt E).
  - split; [|reflexivity]. intros _. apply Qnot_le_lt. intros Hle.
    apply Qle_bool_iff in Hle. congruence.
Qed.

Lemma Qlt_bool_false_iff (a b : Q) : Js.Qlt_bool a b = false <-> (b <= a)%Q.
Proof.
  unfold Js.Qlt_bool. rewrite negb_false_iff. apply Qle_bool_iff.
Qed.

(** ** The list request *)

Lemma getProducts_params_pagination (digits : Q -> string)
    (filters : option Js.object) (sort : option ProductSort.ProductSort)
    (pagination : ProductPagination.ProductPagination) :
  ProductApi.getProducts_params digits filters sort (Some pagination)
  = ProductApi.getProducts_params digits filters sort None
    ++ [("page", pretty (ProductPagination.page pagination));
        ("size", pretty (ProductPagination.size pagination))].
Proof.
  unfold ProductApi.getProducts_params, ProductApi.append, push.
  by rewrite <- app_assoc.
Qed.

Lemma is_present_spec (v : Js.value) :
  Js.is_present v = true <-> v <> Js.VUndefined /\ v <> Js.VNull /\ v <> Js.VStr "".
Proof.
  destruct v as [| |b|n|s]; simpl; try (split; [intros _; repeat split; discriminate | reflexivity]).
  - split; [discriminate | intros (H & _); by destruct H].
  - split; [discriminate | intros (_ & H & _); by destruct H].
  - destruct (String.eqb_spec s "") as [->|Hne]; simpl.
    + split; [discriminate | intros (_ & _ & H); by destruct H].
    + split; [intros _; repeat split; congruence | reflexivity].
Qed.

Lemma forEach_appendFilter (digits : Q -> string) (entries : list (string * Js.value))
    (params : ProductApi.URLSearchParams) :
  Js.forEach entries (ProductApi.appendFilter digits) params
  = params ++ ((fun e => (e.1, Js.String_ digits e.2))
                 <$> filter (fun e => Js.is_present e.2) entries).
Proof.
  revert params. induction entries as [|[key value] entries IH]; intros params.
  - simpl. by rewrite app_nil_r.
  - unfold Js.forEach in *. cbn [fold_left]. rewrite IH.
    unfold ProductApi.appendFilter, ProductApi.append, push.
    rewrite filter_cons. cbn [snd].
    destruct (Js.is_present value) eqn:Hp.
    + rewrite decide_True by done. by rewrite fmap_cons, <- app_assoc.
    + rewrite decide_False by (intros []). reflexivity.
Qed.

Lemma truthy_string_nonempty (s : string) : s <> "" -> Js.truthy_string s = true.
Proof.
  intros Hs. unfold Js.truthy_string. by destruct (String.eqb_spec s "").
Qed.

Lemma toString_nonempty (urlencode : string -> string) (entry : string * string)
    (rest : ProductApi.URLSearchParams) :
  Js.truthy_string (ProductApi.toString urlencode (entry :: rest)) = true.
Proof.
  destruct entry as [name value]. cbn [ProductApi.toString].
  apply truthy_string_nonempty.
  destruct (urlencode name); discriminate.
Qed.








(** ** The listing view's handlers *)

(** C9. After the filter-change handler and after the sort-change handler
    the current page is 1, and the next list request asks for page 1 with
    the unchanged page size. *)
Theorem handlers_reset_page (digits : Q -> string) (s : ProductList.State)
    (newFilters : Js.object) (field : string) :
  let s1 := ProductList.handleFiltersChange newFilters s in
  let s2 := ProductList.handleSortChange field s in
  ProductList.currentPage s1 = 1 /\
  ProductList.currentPage s2 = 1 /\
  ProductPagination.page (ProductList.paginationParams s1) = 1 /\
  ProductPagination.page (ProductList.paginationParams s2) = 1 /\
  (exists front,
     ProductList.requestParams digits s1
     = front ++ [("page", "1"); ("size", pretty (ProductList.pageSize s))]) /\
  (exists front,
     ProductList.requestParams digits s2
     = front ++ [("page", "1"); ("size", pretty (ProductList.pageSize s))]).
Proof.
  intros s1 s2. repeat split.
  - unfold ProductList.requestParams. rewrite getProducts_params_pagination.
    eexists. reflexivity.
  - unfold ProductList.requestParams. rewrite getProducts_params_pagination.
    eexists. f_equal. subst s2. unfold ProductList.handleSortChange.
    by destruct (String.eqb (ProductList.sortBy s) field).
Qed.

(** ** The edit payload *)

Lemma NoDup_filter_keys (P : string * Js.value -> Prop) `{!forall e, Decision (P e)}
    (l : list (string * Js.value)) :
  NoDup l.*1 -> NoDup (filter P l).*1.
Proof.
  intros Hl. eapply sublist_NoDup; [exact Hl|].
  apply fmap_sublist, sublist_filter.
Qed.

Lemma forEach_keepPresent (l : list (string * Js.value)) (m : gmap string Js.value) :
  NoDup l.*1 ->
  Js.forEach l ProductForm.keepPresent m
  = list_to_map (filter (fun e => Js.is_present e.2) l) ∪ m.
Proof.
  revert m. induction l as [|[key value] l IH]; intros m Hl.
  - cbn. by rewrite (left_id_L ∅ (∪)).
  - apply NoDup_cons in Hl as [Hkey Hl].
    unfold Js.forEach in *. cbn [fold_left]. rewrite IH by done.
    unfold ProductForm.keepPresent. rewrite filter_cons. cbn [snd].
    destruct (Js.is_present value) eqn:Hp.
    + rewrite decide_True by done. rewrite list_to_map_cons.
      rewrite <- insert_union_l. symmetry. apply insert_union_r.
      apply not_elem_of_list_to_map_1. intros Hin. apply Hkey.
      apply list_elem_of_fmap in Hin as [e [-> He]].
      apply list_elem_of_filter in He as [_ He].
      apply list_elem_of_fmap. by exists e.
    + rewrite decide_False by (intros []). reflexivity.
Qed.

Lemma entries_keys (formData : ProductCreate.ProductCreate) :
  (ProductForm.entries formData).*1
  = ["title"; "description"; "price"; "discount_percentage"; "category";
     "brand"; "rating"; "stock"; "thumbnail"; "images"].
Proof. reflexivity. Qed.

Lemma entries_NoDup (formData : ProductCreate.ProductCreate) :
  NoDup (ProductForm.entries formData).*1.
Proof. rewrite entries_keys. apply (bool_decide_unpack _). by vm_compute. Qed.

Lemma cleanData_lookup (formData : ProductCreate.ProductCreate) (key : string) (value : Js.value) :
  ProductForm.cleanData formData !! key = Some value <->
  (key, value) ∈ ProductForm.entries formData /\ Js.is_present value = true.
Proof.
  unfold ProductForm.cleanData.
  rewrite forEach_keepPresent by apply entries_NoDup.
  rewrite (right_id_L ∅ (∪)).
  rewrite <- elem_of_list_to_map by apply NoDup_filter_keys, entries_NoDup.
  rewrite list_elem_of_filter. cbn [snd]. unfold Is_true.
  destruct (Js.is_present value); intuition discriminate.
Qed.

Lemma cleanData_keys (formData : ProductCreate.ProductCreate) (key : string) (value : Js.value) :
  ProductForm.cleanData formData !! key = Some value ->
  key ∈ (ProductForm.entries formData).*1.
Proof.
  intros [Hin _]%cleanData_lookup. apply list_elem_of_fmap. by exists (key, value).
Qed.

Lemma lookup_if_insert_ne {V} (c : bool) (k k' : string) (x : V) (m : gmap string V) :
  k' <> k -> (if c then <[k' := x]> m else m) !! k = m !! k.
Proof. intros Hne. destruct c; [by rewrite lookup_insert_ne | done]. Qed.

Lemma lookup_if_insert_eq {V} (c : bool) (k : string) (x : V) (m : gmap string V) :
  (if c then <[k := x]> m else m) !! k = if c then Some x else m !! k.
Proof. destruct c; [by rewrite lookup_insert_eq | done]. Qed.

Ltac read_payload :=
  unfold ProductForm.cleanData, ProductForm.entries, Js.forEach;
  cbn [fold_left ProductForm.keepPresent];
  repeat (rewrite lookup_if_insert_ne by discriminate);
  rewrite lookup_if_insert_eq;
  match goal with |- (if ?c then _ else _) = _ => destruct c; [reflexivity|] end;
  repeat (rewrite lookup_if_insert_ne by discriminate);
  apply lookup_empty.

(** The payload, field by field. *)
Lemma cleanData_fields (formData : ProductCreate.ProductCreate) (key : string) (value : Js.value) :
  (key, value) ∈ ProductForm.entries formData ->
  ProductForm.cleanData formData !! key = if Js.is_present value then Some value else None.
Proof.
  unfold ProductForm.entries at 1. rewrite !elem_of_cons, elem_of_nil.
  intros [H|[H|[H|[H|[H|[H|[H|[H|[H|[H|[]]]]]]]]]]];
    injection H as -> ->; read_payload.
Qed.

(** Nothing but the fields of the form is in the payload. *)
Lemma cleanData_other (formData : ProductCreate.ProductCreate) (key : string) :
  key ∉ FormSpec.fields -> ProductForm.cleanData formData !! key = None.
Proof.
  intros Hkey. destruct (ProductForm.cleanData formData !! key) as [value|] eqn:E; [|done].
  apply cleanData_keys in E. by rewrite entries_keys in E.
Qed.

Lemma sentText_present (s : string) :
  (if Js.is_present (Js.VStr s) then Some (Js.VStr s) else None) = FormSpec.sentText s.
Proof.
  unfold FormSpec.sentText. cbn.
  destruct (String.eqb_spec s "") as [->|Hs]; cbn; [done|].
  by rewrite decide_False.
Qed.

(** C10. The payload of an edit submission, field by field: title,
    description, category, brand, thumbnail and images are in it with
    their text unless that text is empty (or, for the last three, not
    set); price and stock are always in it; discount and rating are in it
    when set; no other key is.  A valid edit submission sends that payload
    in one update of the product.  Under the store's partial update a
    field of the form missing from the payload keeps its stored value, and
    no field of the form is the empty string after the update unless it
    was before. *)
Theorem edit_payload_present_fields (formData : ProductCreate.ProductCreate) :
  let payload := ProductForm.cleanData formData in
  (payload !! "title" = FormSpec.sentText (ProductCreate.title formData) /\
   payload !! "description" = FormSpec.sentText (ProductCreate.description formData) /\
   payload !! "price" = Some (Js.VNum (ProductCreate.price formData)) /\
   payload !! "discount_percentage" = Js.VNum <$> ProductCreate.discount_percentage formData /\
   payload !! "category" = FormSpec.sentText (ProductCreate.category formData) /\
   payload !! "brand" = ProductCreate.brand formData ≫= FormSpec.sentText /\
   payload !! "rating" = Js.VNum <$> ProductCreate.rating formData /\
   payload !! "stock" = Some (Js.VNum (ProductCreate.stock formData)) /\
   payload !! "thumbnail" = ProductCreate.thumbnail formData ≫= FormSpec.sentText /\
   payload !! "images" = ProductCreate.images formData ≫= FormSpec.sentText) /\
  (forall key, key ∉ FormSpec.fields -> payload !! key = None) /\
  (forall key value,
     payload !! key = Some value ->
     value <> Js.VUndefined /\ value <> Js.VNull /\ value <> Js.VStr "") /\
  (forall product,
     ProductForm.validateForm formData = true ->
     ProductForm.handleSubmit ProductForm.edit (Some product) formData
     = [ProductApi.UpdateProduct (Product.id product) payload]) /\
  (forall now record key,
     key ∈ FormSpec.fields ->
     payload !! key = None ->
     Store.update payload now record !! key = record !! key) /\
  (forall now record key,
     key ∈ FormSpec.fields ->
     Store.update payload now record !! key = Some (Js.VStr "") ->
     record !! key = Some (Js.VStr "")).
Proof.
  intros payload. subst payload.
  assert (forall key, key ∈ FormSpec.fields -> key <> "updated_at") as Hfield.
  { intros key Hin ->. revert Hin. apply (bool_decide_unpack _). by vm_compute. }
  split; [|split; [|split; [|split; [|split]]]].
  - repeat split.
    + rewrite (cleanData_fields formData "title" (Js.VStr (ProductCreate.title formData)))
        by set_solver.
      apply sentText_present.
    + rewrite (cleanData_fields formData "description"
                 (Js.VStr (ProductCreate.description formData))) by set_solver.
      apply sentText_present.
    + by rewrite (cleanData_fields formData "price" (Js.VNum (ProductCreate.price formData)))
        by set_solver.
    + rewrite (cleanData_fields formData "discount_percentage"
                 (ProductForm.optional Js.VNum (ProductCreate.discount_percentage formData)))
        by set_solver.
      by destruct (ProductCreate.discount_percentage formData).
    + rewrite (cleanData_fields formData "category"
                 (Js.VStr (ProductCreate.category formData))) by set_solver.
      apply sentText_present.
    + rewrite (cleanData_fields formData "brand"
                 (ProductForm.optional Js.VStr (ProductCreate.brand formData)))
        by set_solver.
      destruct (ProductCreate.brand formData); [apply sentText_present | done].
    + rewrite (cleanData_fields formData "rating"
                 (ProductForm.optional Js.VNum (ProductCreate.rating formData)))
        by set_solver.
      by destruct (ProductCreate.rating formData).
    + by rewrite (cleanData_fields formData "stock" (Js.VNum (ProductCreate.stock formData)))
        by set_solver.
    + rewrite (cleanData_fields formData "thumbnail"
                 (ProductForm.optional Js.VStr (ProductCreate.thumbnail formData)))
        by set_solver.
      destruct (ProductCreate.thumbnail formData); [apply sentText_present | done].
    + rewrite (cleanData_fields formData "images"
                 (ProductForm.optional Js.VStr (ProductCreate.images formData)))
        by set_solver.
      destruct (ProductCreate.images formData); [apply sentText_present | done].
  - apply cleanData_other.
  - intros key value [_ Hpresent]%cleanData_lookup. by apply is_present_spec.
  - intros product Hvalid. unfold ProductForm.handleSubmit. by rewrite Hvalid.
  - intros now record key Hkey Hnone. unfold Store.update.
    rewrite lookup_insert_ne by (apply not_eq_sym; auto).
    by apply lookup_union_r.
  - intros now record key Hkey. unfold Store.update.
    rewrite lookup_insert_ne by (apply not_eq_sym; auto).
    rewrite lookup_union_Some_raw. intros [Hpayload | [_ Hrecord]]; [|done].
    apply cleanData_lookup in Hpayload as [_ Hpresent]. discriminate.
Qed.

Lemma edit_payload_present_fields_witness :
  ProductForm.validateForm Sample.form = true /\
  ProductForm.handleSubmit ProductForm.edit
    (Some (Sample.product (Js.Num 25) (Js.Num 10))) Sample.form
  = [ProductApi.UpdateProduct 7 (ProductForm.cleanData Sample.form)] /\
  ProductForm.cleanData Sample.form !! "title" = Some (Js.VStr "Kettle") /\
  ProductForm.cleanData Sample.form !! "brand" = None /\
  Store.update (ProductForm.cleanData Sample.form) (Js.VStr "2025-02-02T10:00:00") Sample.record
    !! "brand" = Some (Js.VStr "Acme").
Proof.
  destruct (edit_payload_present_fields Sample.form)
    as ((Htitle & _ & _ & _ & _ & Hbrand & _) & _ & _ & Hsend & Hkeep & _).
  assert (ProductForm.validateForm Sample.form = true) as Hvalid by (by vm_compute).
  assert ("brand" ∈ FormSpec.fields) as Hkey.
  { apply (bool_decide_unpack _). by vm_compute. }
  split; [exact Hvalid|].
  split; [exact (Hsend (Sample.product (Js.Num 25) (Js.Num 10)) Hvalid)|].
  split; [exact Htitle|].
  split; [exact Hbrand|].
  rewrite (Hkeep (Js.VStr "2025-02-02T10:00:00") Sample.record "brand" Hkey Hbrand).
  reflexivity.
Defined.

(** ** Form validation *)

Lemma le_num_zero (q : Q) : Js.le (Js.Num q) (Js.Num 0) = true <-> (q <= 0)%Q.
Proof.
  cbn. unfold Js.Qlt_bool. rewrite negb_involutive. apply Qle_bool_iff.
Qed.

Lemma truthy_number_nonzero (q : Q) : ~ (q == 0)%Q -> Js.truthy_number (Js.Num q) = true.
Proof.
  intros Hq. cbn. destruct (Qeq_bool q 0) eqn:E; [|reflexivity].
  apply Qeq_bool_iff in E. contradiction.
Qed.

(** The range check fires on a number outside the range, and on no number
    inside a range that contains zero. *)
Lemma outOfRange_outside (x lo hi : Q) :
  (lo <= 0)%Q -> (0 <= hi)%Q -> (x < lo \/ hi < x)%Q ->
  ProductForm.outOfRange (Some (Js.Num x)) lo hi = true.
Proof.
  intros Hlo Hhi Hout. unfold ProductForm.outOfRange.
  rewrite truthy_number_nonzero.
  - cbn. destruct Hout as [H|H]; apply Qlt_bool_iff in H; rewrite H; [done|].
    by rewrite orb_true_r.
  - intros Hz. destruct Hout as [H|H]; rewrite Hz in H.
    + exact (Qlt_not_le _ _ H Hlo).
    + exact (Qlt_not_le _ _ H Hhi).
Qed.

Lemma outOfRange_within (field : option Js.number) (lo hi : Q) :
  FormSpec.within field lo hi -> ProductForm.outOfRange field lo hi = false.
Proof.
  intros [-> | (x & -> & Hlo & Hhi)]; [reflexivity|].
  unfold ProductForm.outOfRange. cbn.
  apply Qlt_bool_false_iff in Hlo, Hhi. rewrite Hlo, Hhi.
  by rewrite andb_false_r.
Qed.

(** Reading a character consumes the byte it starts at and no more than
    the bytes that follow. *)
Lemma decodeChar_length (c : ascii) (rest : string) :
  (String.length (Js.decodeChar c rest).2 <= String.length rest)%nat.
Proof.
  unfold Js.decodeChar.
  repeat match goal with
         | |- context [if ?b then _ else _] => destruct b
         | |- context [match ?r with EmptyString => _ | String _ _ => _ end] => destruct r
         end; cbn [snd String.length]; lia.
Qed.

Lemma codePoints_from_steps (n m : nat) (s : string) :
  (String.length s <= n)%nat -> (String.length s <= m)%nat ->
  Js.codePoints_from n s = Js.codePoints_from m s.
Proof.
  revert m s. induction n as [|n IH]; intros m s Hn Hm.
  - destruct s; [by destruct m|cbn in Hn; lia].
  - destruct s as [|c rest]; [by destruct m|].
    destruct m as [|m]; [cbn in Hm; lia|].
    cbn [Js.codePoints_from].
    pose proof (decodeChar_length c rest) as Hlen.
    destruct (Js.decodeChar c rest) as [cp after]. cbn [snd] in Hlen.
    cbn [String.length] in Hn, Hm.
    f_equal. apply IH; lia.
Qed.

Lemma codePoints_cons (c : ascii) (rest : string) :
  Js.codePoints (String c rest)
  = (Js.decodeChar c rest).1 :: Js.codePoints (Js.decodeChar c rest).2.
Proof.
  unfold Js.codePoints. cbn [String.length Js.codePoints_from].
  pose proof (decodeChar_length c rest) as Hlen.
  destruct (Js.decodeChar c rest) as [cp after]. cbn [fst snd] in *.
  f_equal. apply codePoints_from_steps; lia.
Qed.

Lemma hasVisibleChar_cons (c : ascii) (rest : string) :
  Js.hasVisibleChar (String c rest)
  = negb (Js.isWhiteSpace (Js.decodeChar c rest).1)
    || Js.hasVisibleChar (Js.decodeChar c rest).2.
Proof. unfold Js.hasVisibleChar. by rewrite codePoints_cons. Qed.

(** [trim] leaves the empty string exactly for a text of white space. *)
Lemma trimStart_from_visible (steps : nat) (s : string) :
  Js.hasVisibleChar (Js.trimStart_from steps s) = Js.hasVisibleChar s.
Proof.
  revert s. induction steps as [|steps IH]; intros s; [reflexivity|].
  destruct s as [|c rest]; [reflexivity|].
  cbn [Js.trimStart_from]. rewrite (hasVisibleChar_cons c rest).
  destruct (Js.decodeChar c rest) as [cp after] eqn:E. cbn [fst snd].
  destruct (Js.isWhiteSpace cp) eqn:W; [by rewrite IH|].
  by rewrite hasVisibleChar_cons, E; cbn [fst snd]; rewrite W.
Qed.

Lemma trimStart_visible (s : string) :
  Js.hasVisibleChar (Js.trimStart s) = Js.hasVisibleChar s.
Proof. apply trimStart_from_visible. Qed.

Lemma hasVisibleChar_isBlank (s : string) : Js.hasVisibleChar s = negb (Js.isBlank s).
Proof.
  unfold Js.hasVisibleChar, Js.isBlank.
  induction (Js.codePoints s) as [|cp l IH]; [done|].
  cbn [existsb forallb]. rewrite IH. by destruct (Js.isWhiteSpace cp).
Qed.

Lemma trimEnd_empty (s : string) :
  Js.trimEnd s = EmptyString <-> Js.hasVisibleChar s = false.
Proof.
  rewrite hasVisibleChar_isBlank.
  destruct s as [|c rest]; [done|].
  cbn [Js.trimEnd].
  destruct (Js.isBlank (String c rest)); split; discriminate || done.
Qed.

Lemma truthy_trim (s : string) :
  Js.truthy_string (Js.trim s) = Js.hasVisibleChar s.
Proof.
  unfold Js.truthy_string, Js.trim.
  rewrite <- (trimStart_visible s).
  destruct (String.eqb_spec (Js.trimEnd (Js.trimStart s)) "") as [E|E]; cbn.
  - apply trimEnd_empty in E. by rewrite E.
  - destruct (Js.hasVisibleChar (Js.trimStart s)) eqn:V; [done|].
    apply trimEnd_empty in V. contradiction.
Qed.

(** Reading the error object: each check writes under its own key. *)
Lemma lookup_cond_insert_ne (c : bool) (k k' x : string) (m : gmap string string) :
  k' <> k -> (if c then <[k' := x]> m else m) !! k = m !! k.
Proof. intros Hne. destruct c; [by rewrite lookup_insert_ne | done]. Qed.

Lemma lookup_cond_insert_eq (c : bool) (k x : string) (m : gmap string string) :
  (if c then <[k := x]> m else m) !! k = if c then Some x else m !! k.
Proof. destruct c; [by rewrite lookup_insert_eq | done]. Qed.

Ltac read_errors :=
  unfold ProductForm.newErrors; cbv zeta;
  repeat (rewrite lookup_cond_insert_ne by discriminate);
  rewrite lookup_cond_insert_eq;
  match goal with |- (if ?c then _ else _) = _ => destruct c; [reflexivity|] end;
  repeat (rewrite lookup_cond_insert_ne by discriminate);
  apply lookup_empty.

Lemma newErrors_lookup (formData : ProductCreate.ProductCreate) :
  ProductForm.newErrors formData !! "title"
  = (if negb (Js.truthy_string (Js.trim (ProductCreate.title formData)))
     then Some "Title is required" else None) /\
  ProductForm.newErrors formData !! "description"
  = (if negb (Js.truthy_string (Js.trim (ProductCreate.description formData)))
     then Some "Description is required" else None) /\
  ProductForm.newErrors formData !! "price"
  = (if Js.le (ProductCreate.price formData) (Js.Num 0)
     then Some "Price must be greater than 0" else None) /\
  ProductForm.newErrors formData !! "discount_percentage"
  = (if ProductForm.outOfRange (ProductCreate.discount_percentage formData) 0 100
     then Some "Discount must be between 0 and 100" else None) /\
  ProductForm.newErrors formData !! "category"
  = (if negb (Js.truthy_string (ProductCreate.category formData))
     then Some "Category is required" else None) /\
  ProductForm.newErrors formData !! "stock"
  = (if Js.lt (ProductCreate.stock formData) (Js.Num 0)
     then Some "Stock cannot be negative" else None) /\
  ProductForm.newErrors formData !! "rating"
  = (if ProductForm.outOfRange (ProductCreate.rating formData) 0 5
     then Some "Rating must be between 0 and 5" else None).
Proof. repeat split; read_errors. Qed.

Lemma validateForm_true_iff (formData : ProductCreate.ProductCreate) :
  ProductForm.validateForm formData = true <-> ProductForm.newErrors formData = ∅.
Proof.
  unfold ProductForm.validateForm. rewrite Nat.eqb_eq. apply map_size_empty_iff.
Qed.

Lemma validateForm_false (formData : ProductCreate.ProductCreate) (key msg : string) :
  ProductForm.newErrors formData !! key = Some msg ->
  ProductForm.validateForm formData = false.
Proof.
  intros Hk. destruct (ProductForm.validateForm formData) eqn:E; [|done].
  apply validateForm_true_iff in E. rewrite E in Hk. by rewrite lookup_empty in Hk.
Qed.

Lemma newErrors_empty (formData : ProductCreate.ProductCreate) :
  FormSpec.invariants formData -> FormSpec.required_filled formData ->
  ProductForm.newErrors formData = ∅.
Proof.
  intros ((q & Hprice & Hq) & Hdiscount & Hrating & (s & Hstock & Hs)) (Ht & Hd & Hc).
  unfold ProductForm.newErrors. cbv zeta.
  rewrite !truthy_trim, Ht, Hd, (truthy_string_nonempty _ Hc).
  rewrite (outOfRange_within _ _ _ Hdiscount), (outOfRange_within _ _ _ Hrating).
  rewrite Hprice, Hstock.
  replace (Js.le (Js.Num q) (Js.Num 0)) with false.
  2:{ symmetry. apply not_true_is_false. intros Hle%le_num_zero.
      exact (Qlt_not_le _ _ Hq Hle). }
  replace (Js.lt (Js.Num s) (Js.Num 0)) with false.
  2:{ symmetry. by apply Qlt_bool_false_iff. }
  reflexivity.
Qed.

Lemma violates_reported (formData : ProductCreate.ProductCreate) (field : string) :
  FormSpec.violates formData field ->
  exists msg, ProductForm.newErrors formData !! field = Some msg.
Proof.
  pose proof (newErrors_lookup formData) as (_ & _ & Hp & Hd & _ & Hs & Hr).
  intros [q Hprice Hq | d Hdisc Hd' | r Hrating Hr' | s Hstock Hs'].
  - rewrite Hp, Hprice. apply le_num_zero in Hq. rewrite Hq. eauto.
  - rewrite Hd, Hdisc, outOfRange_outside; [eauto | apply Qle_refl | done | done].
  - rewrite Hr, Hrating, outOfRange_outside; [eauto | apply Qle_refl | done | done].
  - rewrite Hs, Hstock. cbn. apply Qlt_bool_iff in Hs'. rewrite Hs'. eauto.
Qed.

(** C5, as the form implements it.  A finite numeric field that breaks an
    invariant of the data model gives an error stored under the name of
    that field, validation fails and no request is made.  A form that
    meets the four invariants, whose title and description have a
    character other than white space and whose category is not empty,
    passes validation with no error; it is then sent as a create request in
    create mode and as an update request in edit mode for a given product. *)
Theorem validateForm_enforces_invariants (formData : ProductCreate.ProductCreate) :
  (forall field,
     FormSpec.violates formData field ->
     (exists msg, ProductForm.newErrors formData !! field = Some msg) /\
     ProductForm.validateForm formData = false /\
     (forall mode product, ProductForm.handleSubmit mode product formData = [])) /\
  (FormSpec.invariants formData ->
   FormSpec.required_filled formData ->
   ProductForm.newErrors formData = ∅ /\
   ProductForm.validateForm formData = true /\
   (forall product,
      ProductForm.handleSubmit ProductForm.create product formData
      = [ProductApi.CreateProduct formData]) /\
   (forall product,
      ProductForm.handleSubmit ProductForm.edit (Some product) formData
      = [ProductApi.UpdateProduct (Product.id product) (ProductForm.cleanData formData)])).
Proof.
  split.
  - intros field Hv. destruct (violates_reported _ _ Hv) as [msg Hmsg].
    pose proof (validateForm_false _ _ _ Hmsg) as Hfalse.
    split; [eauto | split; [done|]].
    intros mode product. unfold ProductForm.handleSubmit. by rewrite Hfalse.
  - intros Hinv Hreq. pose proof (newErrors_empty _ Hinv Hreq) as Hempty.
    pose proof (proj2 (validateForm_true_iff formData) Hempty) as Hvalid.
    split; [done | split; [done | split]];
      intros product; unfold ProductForm.handleSubmit; by rewrite Hvalid.
Qed.

Lemma sample_form_invariants : FormSpec.invariants Sample.form.
Proof.
  split; [|split; [|split]].
  - by exists 25%Q.
  - right. by exists 10%Q.
  - right. by exists 4%Q.
  - by exists 3%Q.
Qed.

Lemma validateForm_enforces_invariants_witness :
  (FormSpec.violates Sample.negativePriceForm "price" /\
   ProductForm.validateForm Sample.negativePriceForm = false /\
   ProductForm.handleSubmit ProductForm.create None Sample.negativePriceForm = []) /\
  (FormSpec.invariants Sample.form /\
   FormSpec.required_filled Sample.form /\
   ProductForm.validateForm Sample.form = true /\
   ProductForm.handleSubmit ProductForm.create None Sample.form
   = [ProductApi.CreateProduct Sample.form]).
Proof.
  assert (FormSpec.violates Sample.negativePriceForm "price") as Hv.
  { by apply (FormSpec.violates_price _ (-1)%Q). }
  assert (FormSpec.required_filled Sample.form) as Hreq.
  { by repeat split. }
  split.
  - destruct (proj1 (validateForm_enforces_invariants Sample.negativePriceForm) "price" Hv)
      as (_ & Hfalse & Hnone).
    split; [exact Hv | split; [exact Hfalse | apply Hnone]].
  - destruct (proj2 (validateForm_enforces_invariants Sample.form)
                sample_form_invariants Hreq) as (_ & Hvalid & Hcreate & _).
    split; [exact sample_form_invariants | split; [exact Hreq | split; [exact Hvalid | apply Hcreate]]].
Defined.

(** The claim as the specification words it asks only for a title that is
    not empty.  A title of one space meets that and all four invariants,
    and is rejected: the form trims the title before testing it. *)
Lemma validateForm_blank_title_counterexample :
  FormSpec.invariants Sample.blankTitleForm /\
  FormSpec.required_nonempty Sample.blankTitleForm /\
  ProductForm.newErrors Sample.blankTitleForm !! "title" = Some "Title is required" /\
  ProductForm.validateForm Sample.blankTitleForm = false /\
  ProductForm.handleSubmit ProductForm.create None Sample.blankTitleForm = [].
Proof.
  split; [exact sample_form_invariants|].
  split; [by repeat split|].
  by vm_compute.
Qed.

(** The white space the form trims is that of the language: a title of one
    EM SPACE or one IDEOGRAPHIC SPACE is rejected like a title of one
    space, a title of one ZERO WIDTH SPACE is accepted, and white space
    around a visible character does not matter. *)
Example validateForm_unicode_white_space :
  Js.codePoints Sample.emSpace = [8195%N] /\
  Js.trim Sample.emSpace = "" /\
  ProductForm.newErrors (Sample.titled Sample.emSpace) !! "title"
  = Some "Title is required" /\
  ProductForm.handleSubmit ProductForm.create None (Sample.titled Sample.emSpace) = [] /\
  ProductForm.newErrors (Sample.titled Sample.ideographicSpace) !! "title"
  = Some "Title is required" /\
  ProductForm.validateForm (Sample.titled Sample.zeroWidthSpace) = true /\
  Js.trim (" " +:+ Sample.emSpace +:+ "Kettle" +:+ Sample.ideographicSpace) = "Kettle" /\
  ProductForm.validateForm (Sample.titled (Sample.emSpace +:+ "Kettle")) = true.
Proof. by vm_compute. Qed.

(** A cleared price input leaves NaN in the form.  NaN is not greater than
    zero, yet [NaN <= 0] is false as well: no error is recorded and the
    form is sent. *)
Example validateForm_cleared_price :
  Js.gt (ProductCreate.price Sample.clearedPriceForm) (Js.Num 0) = false /\
  ProductForm.validateForm Sample.clearedPriceForm = true /\
  ProductForm.handleSubmit ProductForm.create None Sample.clearedPriceForm
  = [ProductApi.CreateProduct Sample.clearedPriceForm].
Proof. by vm_compute. Qed.

(** ** Failed requests *)

(** The calls by id are [request] on the endpoint of the id. *)
Lemma calls_by_id_are_requests {T} (JSON_stringify : forall A : Type, A -> string)
    (fetch : ProductApi.Fetch T) (id : Z) (productData : gmap string Js.value) :
  ProductApi.getProduct fetch id
  = ProductApi.request fetch ("/products/" +:+ pretty id) ProductApi.noOptions /\
  ProductApi.updateProduct JSON_stringify fetch id productData
  = ProductApi.request fetch ("/products/" +:+ pretty id)
      (ProductApi.mkInit (Some "PUT") (Some (JSON_stringify _ productData))) /\
  ProductApi.deleteProduct fetch id
  = ProductApi.request fetch ("/products/" +:+ pretty id)
      (ProductApi.mkInit (Some "DELETE") None).
Proof. done. Qed.







(** ** Rounding to binary64 *)









(** Equal reals are stored as the same number. *)
Lemma toDouble_proper (x y : Q) : (x == y)%Q -> Js.toDouble x = Js.toDouble y.
Proof. intros H. unfold Js.toDouble. by rewrite (Qred_complete x y H). Qed.














(** ** The price block of the detail view *)


Lemma gt_num_zero (d : Q) : Js.gt (Js.Num d) (Js.Num 0) = true <-> (0 < d)%Q.
Proof. cbn. apply Qlt_bool_iff. Qed.







(** The operations on finite operands: each operand is stored, then the
    real result is. *)
Lemma sub_finite (p q p' q' : Q) :
  Js.toDouble p = Js.Num p' -> Js.toDouble q = Js.Num q' ->
  Js.sub (Js.Num p) (Js.Num q) = Js.toDouble (p' - q').
Proof. intros Hp Hq. unfold Js.sub, Js.asDouble. by rewrite Hp, Hq. Qed.

Lemma div_finite (p q p' q' : Q) :
  Js.toDouble p = Js.Num p' -> Js.toDouble q = Js.Num q' -> ~ (q' == 0)%Q ->
  Js.div (Js.Num p) (Js.Num q) = Js.toDouble (p' / q').
Proof.
  intros Hp Hq Hne. unfold Js.div, Js.asDouble. rewrite Hq, Hp.
  destruct (Qeq_bool q' 0) eqn:E; [|reflexivity].
  by apply Qeq_bool_iff in E.
Qed.

Lemma div_by_zero (p q : Q) :
  (0 < p)%Q -> (q == 0)%Q -> Js.div (Js.Num p) (Js.Num q) = Js.PosInfinity.
Proof.
  intros Hp Hq. unfold Js.div, Js.asDouble.
  rewrite (toDouble_proper q 0 Hq).
  change (Js.toDouble 0) with (Js.Num 0). change (Qeq_bool 0 0) with true. cbv iota.
  by rewrite (proj2 (Qlt_bool_iff 0 p) Hp).
Qed.

Lemma toDouble_1 : Js.toDouble 1 = Js.Num 1.
Proof. by vm_compute. Qed.

Lemma toDouble_100 : Js.toDouble 100 = Js.Num 100.
Proof. by vm_compute. Qed.

(** With a percentage of 100 the quotient [100/100] and the difference
    [1 - 1] are exact, and the divisor is zero. *)
Lemma divisor_full (p : Product.Product) (d : Q) :
  Product.discount_percentage p = Js.Num d ->
  (d == 100)%Q ->
  ProductDetail.divisor p = Js.Num 0.
Proof.
  intros Hd H100. unfold ProductDetail.divisor. rewrite Hd.
  rewrite (div_finite d 100 100 100); [| |exact toDouble_100|discriminate].
  2:{ rewrite (toDouble_proper d 100 H100). exact toDouble_100. }
  assert (Js.toDouble (100 / 100) = Js.Num 1) as -> by (by vm_compute).
  rewrite (sub_finite 1 1 1 1 toDouble_1 toDouble_1).
  by vm_compute.
Qed.





(** The arithmetic is that of binary64.  The decimal 2.53 is no binary64
    value and enters as the nearest one; at that price with 12 percent the
    quotient of the decimals is 2.875, the computed one is
    2.8749999999999996, and the text shown is 2.87. *)
Example priceBlock_binary64 :
  Js.isDouble (253 # 100) = false /\
  Js.toDouble (253 # 100) = Js.Num Sample.price_2_53 /\
  Js.isDouble Sample.price_2_53 = true /\
  ProductDetail.struckThrough
    (ProductDetail.priceBlock (Sample.product (Js.Num (253 # 100)) (Js.Num 12)))
  = Some (Js.Fixed 287) /\
  ProductDetail.preDiscount (Sample.product (Js.Num Sample.price_2_53) (Js.Num 12))
  = Js.Num (6473924464345087 # 2251799813685248) /\
  ProductDetail.struckThrough
    (ProductDetail.priceBlock (Sample.product (Js.Num Sample.price_2_53) (Js.Num 12)))
  = Some (Js.Fixed 287).
Proof. by vm_compute. Qed.

(** C8. The struck-through price is computed under the guard
    [discount_percentage > 0] alone.  A product that meets the invariant of
    the data model with a percentage of 100 passes the guard, the divisor
    [1 - 100/100] is zero, and the value computed and shown is Infinity. *)
Theorem pre_discount_divides_by_zero (p : Product.Product) (d : Q) :
  Product.invariant p ->
  Product.discount_percentage p = Js.Num d ->
  (d == 100)%Q ->
  Js.gt (Product.discount_percentage p) (Js.Num 0) = true /\
  (exists z, ProductDetail.divisor p = Js.Num z /\ (z == 0)%Q) /\
  ProductDetail.preDiscount p = Js.PosInfinity /\
  Js.isFinite (ProductDetail.preDiscount p) = false /\
  ProductDetail.struckThrough (ProductDetail.priceBlock p)
  = Some (Js.Unrounded Js.PosInfinity).
Proof.
  intros (a & d' & r & s & Ha & Hd' & _ & _ & Hpos & _) Hd H100.
  assert (Js.gt (Product.discount_percentage p) (Js.Num 0) = true) as Hguard.
  { rewrite Hd. apply gt_num_zero. rewrite H100. reflexivity. }
  pose proof (divisor_full p d Hd H100) as Hzero.
  assert (ProductDetail.preDiscount p = Js.PosInfinity) as Hinf.
  { unfold ProductDetail.preDiscount. rewrite Hzero, Ha.
    by apply div_by_zero. }
  split; [exact Hguard|].
  split; [exists 0%Q; split; [exact Hzero | reflexivity]|].
  split; [exact Hinf|].
  split; [by rewrite Hinf|].
  unfold ProductDetail.priceBlock. rewrite Hguard. cbn. by rewrite Hinf.
Qed.

Lemma pre_discount_divides_by_zero_witness :
  Product.invariant (Sample.product (Js.Num 25) (Js.Num 100)) /\
  ProductDetail.preDiscount (Sample.product (Js.Num 25) (Js.Num 100)) = Js.PosInfinity /\
  ProductDetail.struckThrough
    (ProductDetail.priceBlock (Sample.product (Js.Num 25) (Js.Num 100)))
  = Some (Js.Unrounded Js.PosInfinity).
Proof.
  assert (Product.invariant (Sample.product (Js.Num 25) (Js.Num 100))) as Hinv.
  { exists 25%Q, 100%Q, 4%Q, 3%Q. by repeat split. }
  destruct (pre_discount_divides_by_zero (Sample.product (Js.Num 25) (Js.Num 100)) 100
              Hinv eq_refl (Qeq_refl 100)) as (_ & _ & Hinf & _ & Hshown).
  split; [exact Hinv | split; [exact Hinf | exact Hshown]].
Defined.

(** * Further properties of the page window *)

Lemma for_iter_window_any (t : Z) (n : nat) (i : Z) (acc : list PageLabel) :
  1 < i -> (n = O \/ i + Z.of_nat n <= t) ->
  for_iter n i (window_body t) acc = acc ++ (Page <$> seqZ i (Z.of_nat n)).
Proof.
  intros Hi [-> | Hn]; [|by apply for_iter_window].
  simpl. by rewrite app_nil_r.
Qed.

(** The shape of the window for any current page, in range or not. *)
Lemma getPageNumbers_shape (c t : Z) :
  5 < t ->
  getPageNumbers c t =
  [Page 1] ++ (if c >? 3 then [Ellipsis] else [])
  ++ (Page <$> seqZ (Z.max 2 (c - 1)) (Z.min (t - 1) (c + 1) - Z.max 2 (c - 1) + 1))
  ++ (if c <? t - 2 then [Ellipsis] else []) ++ [Page t].
Proof.
  intros Ht. unfold getPageNumbers.
  destruct (Z.leb_spec t 5) as [?|_]; [lia|].
  unfold for_loop. rewrite for_iter_window_any by lia.
  destruct (Z.gtb_spec t 1) as [_|?]; [|lia].
  assert (seqZ (Z.max 2 (c - 1))
            (Z.of_nat (Z.to_nat (Z.min (t - 1) (c + 1) - Z.max 2 (c - 1) + 1)))
          = seqZ (Z.max 2 (c - 1)) (Z.min (t - 1) (c + 1) - Z.max 2 (c - 1) + 1)) as ->.
  { destruct (Z.le_gt_cases 0 (Z.min (t - 1) (c + 1) - Z.max 2 (c - 1) + 1)).
    - by rewrite Z2Nat.id.
    - rewrite !seqZ_nil; [done | lia | lia]. }
  unfold push. simpl.
  destruct (c >? 3), (c <? t - 2); simpl; by rewrite <- ?app_assoc.
Qed.

Lemma shownPages_app (l1 l2 : list PageLabel) :
  shownPages (l1 ++ l2) = shownPages l1 ++ shownPages l2.
Proof.
  induction l1 as [|[n|] l1 IH]; simpl; [done | by rewrite IH | done].
Qed.

Lemma shownPages_pages (l : list Z) : shownPages (Page <$> l) = l.
Proof.
  induction l as [|n l IH]; [done|].
  rewrite fmap_cons. cbn [shownPages]. by rewrite IH.
Qed.

Lemma shownPages_optional_ellipsis (c : bool) :
  shownPages (if c then [Ellipsis] else []) = [].
Proof. by destruct c. Qed.

Lemma shownPages_shape (c t : Z) :
  5 < t ->
  shownPages (getPageNumbers c t)
  = [1] ++ seqZ (Z.max 2 (c - 1)) (Z.min (t - 1) (c + 1) - Z.max 2 (c - 1) + 1) ++ [t].
Proof.
  intros Ht. rewrite getPageNumbers_shape by done.
  rewrite !shownPages_app, !shownPages_optional_ellipsis, shownPages_pages.
  reflexivity.
Qed.

Lemma seqZ_increasing (m n : Z) : StronglySorted Z.lt (seqZ m n).
Proof.
  destruct (Z.le_gt_cases n 0) as [Hn|Hn].
  { rewrite seqZ_nil by done. constructor. }
  rewrite <- (Z2Nat.id n) by lia. generalize (Z.to_nat n) as k. clear n Hn.
  intros k. revert m. induction k as [|k IH]; intros m.
  - rewrite seqZ_nil by lia. constructor.
  - rewrite seqZ_cons by lia.
    replace (Z.pred (Z.of_nat (S k))) with (Z.of_nat k) by lia.
    constructor; [apply IH|].
    apply Forall_forall. intros x Hx%elem_of_seqZ. lia.
Qed.

(** X1. Whatever the current page, a page label of the window is a page
    of the result set. *)
Theorem getPageNumbers_pages_in_range (c t n : Z) :
  Page n ∈ getPageNumbers c t -> 1 <= n <= t.
Proof.
  destruct (Z.le_gt_cases t 5) as [Hs|Hl].
  - rewrite getPageNumbers_small by done.
    intros (x & [= ->] & Hx%elem_of_seqZ)%list_elem_of_fmap. lia.
  - rewrite getPageNumbers_shape by lia. rewrite !elem_of_app.
    intros [H | [H | [H | [H | H]]]].
    + apply list_elem_of_singleton in H as [= ->]. lia.
    + destruct (c >? 3); [|by apply elem_of_nil in H].
      by apply list_elem_of_singleton in H.
    + apply list_elem_of_fmap in H as (x & [= ->] & Hx%elem_of_seqZ). lia.
    + destruct (c <? t - 2); [|by apply elem_of_nil in H].
      by apply list_elem_of_singleton in H.
    + apply list_elem_of_singleton in H as [= ->]. lia.
Qed.

Lemma getPageNumbers_pages_in_range_witness :
  Page 6 ∈ getPageNumbers 5 10 /\ 1 <= 6 <= 10.
Proof.
  assert (Page 6 ∈ getPageNumbers 5 10) as Hin.
  { change (getPageNumbers 5 10)
      with [Page 1; Ellipsis; Page 4; Page 5; Page 6; Ellipsis; Page 10].
    do 4 apply list_elem_of_further. apply list_elem_of_here. }
  split; [exact Hin | exact (getPageNumbers_pages_in_range 5 10 6 Hin)].
Defined.

(** X2. Whatever the current page, the page numbers of the window strictly
    increase, so no page is shown twice, and the window has at most seven
    entries. *)
Theorem getPageNumbers_increasing_bounded (c t : Z) :
  StronglySorted Z.lt (shownPages (getPageNumbers c t)) /\
  NoDup (shownPages (getPageNumbers c t)) /\
  (length (getPageNumbers c t) <= 7)%nat.
Proof.
  assert (StronglySorted Z.lt (shownPages (getPageNumbers c t))) as Hsorted.
  { destruct (Z.le_gt_cases t 5) as [Hs|Hl].
    - rewrite getPageNumbers_small, shownPages_pages by done. apply seqZ_increasing.
    - rewrite shownPages_shape by lia.
      apply StronglySorted_app_2; [|repeat constructor|].
      + intros x1 x2 ->%list_elem_of_singleton
          [Hx%elem_of_seqZ | ->%list_elem_of_singleton]%elem_of_app; lia.
      + apply StronglySorted_app_2; [|apply seqZ_increasing|repeat constructor].
        intros x1 x2 Hx%elem_of_seqZ ->%list_elem_of_singleton. lia. }
  split; [exact Hsorted | split].
  - clear -Hsorted. induction Hsorted as [|x l _ IH Hall]; constructor; [|done].
    intros Hin. rewrite Forall_forall in Hall. specialize (Hall x Hin). lia.
  - destruct (Z.le_gt_cases t 5) as [Hs|Hl].
    + rewrite getPageNumbers_small, length_fmap, length_seqZ by done. lia.
    + rewrite getPageNumbers_shape by lia.
      rewrite !length_app, length_fmap, length_seqZ.
      destruct (c >? 3), (c <? t - 2); simpl; lia.
Qed.

(** X3. A current page within the result set is always one of the labels,
    so the window has a button for the page that is shown. *)
Theorem getPageNumbers_has_current (c t : Z) :
  1 <= c <= t -> Page c ∈ getPageNumbers c t.
Proof.
  intros Hc. destruct (Z.le_gt_cases t 5) as [Hs|Hl].
  - rewrite getPageNumbers_small by done.
    apply list_elem_of_fmap_2, elem_of_seqZ. lia.
  - rewrite getPageNumbers_shape by lia. rewrite !elem_of_app.
    destruct (Z.eq_dec c 1) as [->|H1]; [left; by apply list_elem_of_singleton|].
    destruct (Z.eq_dec c t) as [->|Ht]; [do 4 right; by apply list_elem_of_singleton|].
    right; right; left. apply list_elem_of_fmap_2, elem_of_seqZ. lia.
Qed.

Lemma getPageNumbers_has_current_witness :
  1 <= 4 <= 9 /\ Page 4 ∈ getPageNumbers 4 9.
Proof. split; [lia | apply (getPageNumbers_has_current 4 9); lia]. Defined.

(** X4. With more than five pages, a current page outside the result set
    (a stale page, or none yet) gives the window of page 1, an ellipsis and
    the last page. *)
Theorem getPageNumbers_stale_page (c t : Z) :
  5 < t -> c < 1 \/ t < c ->
  getPageNumbers c t = [Page 1; Ellipsis; Page t].
Proof.
  intros Ht Hc. rewrite getPageNumbers_shape by done.
  rewrite seqZ_nil by lia.
  destruct Hc as [Hc|Hc]; decide_comparisons; reflexivity.
Qed.

Lemma getPageNumbers_stale_page_witness :
  5 < 6 /\ (12 < 1 \/ 6 < 12) /\ getPageNumbers 12 6 = [Page 1; Ellipsis; Page 6].
Proof.
  split; [lia | split; [lia | apply (getPageNumbers_stale_page 12 6); lia]].
Defined.

(** * Further properties of the list request and of the filter panel *)

(** X5. The endpoint of the list request is [/products] alone when no
    parameter is sent, and [/products?] followed by the serialised
    parameters otherwise: the URL never ends in a bare question mark. *)
Theorem getProducts_endpoint_query (digits : Q -> string) (urlencode : string -> string)
    (filters : option Js.object) (sort : option ProductSort.ProductSort)
    (pagination : option ProductPagination.ProductPagination) :
  ProductApi.getProducts_endpoint digits urlencode filters sort pagination
  = match ProductApi.getProducts_params digits filters sort pagination with
    | [] => "/products"
    | params => "/products?" +:+ ProductApi.toString urlencode params
    end.
Proof.
  unfold ProductApi.getProducts_endpoint.
  destruct (ProductApi.getProducts_params digits filters sort pagination) as [|entry rest].
  - reflexivity.
  - by rewrite toString_nonempty.
Qed.

Lemma get_set_eq (o : Js.object) (key : string) (value : Js.value) :
  JsObject.get (JsObject.set o key value) key = Some value.
Proof.
  induction o as [|[k x] o IH]; cbn.
  - by rewrite String.eqb_refl.
  - destruct (String.eqb k key) eqn:E; cbn; rewrite E; [done | exact IH].
Qed.

Lemma get_set_ne (o : Js.object) (key other : string) (value : Js.value) :
  other <> key ->
  JsObject.get (JsObject.set o key value) other = JsObject.get o other.
Proof.
  intros Hne. induction o as [|[k x] o IH]; cbn.
  - destruct (String.eqb_spec key other); [congruence | done].
  - destruct (String.eqb_spec k key) as [->|Hk]; cbn.
    + destruct (String.eqb_spec key other); [congruence | done].
    + by rewrite IH.
Qed.

Lemma set_keys (o : Js.object) (key : string) (value : Js.value) :
  (JsObject.set o key value).*1 = if bool_decide (key ∈ o.*1) then o.*1 else o.*1 ++ [key].
Proof.
  induction o as [|[k x] o IH]; cbn.
  - reflexivity.
  - destruct (String.eqb_spec k key) as [->|Hk]; cbn.
    + rewrite bool_decide_eq_true_2; [done | apply list_elem_of_here].
    + rewrite IH. destruct (bool_decide (key ∈ o.*1)) eqn:E.
      * apply bool_decide_eq_true in E.
        rewrite bool_decide_eq_true_2; [done | by apply list_elem_of_further].
      * apply bool_decide_eq_false in E.
        rewrite bool_decide_eq_false_2; [done|].
        intros [?|?]%elem_of_cons; congruence.
Qed.

Lemma set_NoDup (o : Js.object) (key : string) (value : Js.value) :
  NoDup o.*1 -> NoDup (JsObject.set o key value).*1.
Proof.
  intros Ho. rewrite set_keys. destruct (bool_decide (key ∈ o.*1)) eqn:E; [done|].
  apply bool_decide_eq_false in E. apply NoDup_app. split; [done|].
  split; [|apply NoDup_singleton].
  intros x Hx ->%list_elem_of_singleton. contradiction.
Qed.

Lemma get_elem_of (o : Js.object) (key : string) (value : Js.value) :
  JsObject.get o key = Some value -> (key, value) ∈ o.
Proof.
  induction o as [|[k x] o IH]; cbn; [discriminate|].
  destruct (String.eqb_spec k key) as [->|Hk].
  - intros [= ->]. apply list_elem_of_here.
  - intros H. apply list_elem_of_further. by apply IH.
Qed.

(** X6. Changing one filter in the panel sets that property and no other:
    reading it back gives the new value, every other property reads as
    before, no property name is doubled, and the property names keep
    their order (a new name goes last). *)
Theorem handleFilterChange_sets_one (localFilters : Js.object) (key : string) (value : Js.value) :
  let changed := ProductFilters.handleFilterChange key value localFilters in
  JsObject.get changed key = Some value /\
  (forall other, other <> key -> JsObject.get changed other = JsObject.get localFilters other) /\
  (NoDup localFilters.*1 -> NoDup changed.*1) /\
  changed.*1 = (if bool_decide (key ∈ localFilters.*1) then localFilters.*1
                else localFilters.*1 ++ [key]).
Proof.
  intros changed. split; [apply get_set_eq|].
  split; [intros other Hne; by apply get_set_ne|].
  split; [apply set_NoDup | apply set_keys].
Qed.

Lemma handleFilterChange_sets_one_witness :
  NoDup ProductFilters.clearedFilters.*1 /\
  NoDup (ProductFilters.handleFilterChange "brand" (Js.VStr "Acme")
           ProductFilters.clearedFilters).*1 /\
  JsObject.get (ProductFilters.handleFilterChange "brand" (Js.VStr "Acme")
                  ProductFilters.clearedFilters) "search" = Some (Js.VStr "").
Proof.
  assert (NoDup ProductFilters.clearedFilters.*1) as Hnd.
  { apply (bool_decide_unpack _). by vm_compute. }
  destruct (handleFilterChange_sets_one ProductFilters.clearedFilters "brand" (Js.VStr "Acme"))
    as (_ & Hother & Hkeys & _).
  split; [exact Hnd | split; [exact (Hkeys Hnd)|]].
  rewrite Hother by discriminate. reflexivity.
Defined.

Lemma requestParams_filters (digits : Q -> string) (s : ProductList.State)
    (key : string) (value : Js.value) :
  (key, value) ∈ ProductList.filters s ->
  Js.is_present value = true ->
  (key, Js.String_ digits value) ∈ ProductList.requestParams digits s.
Proof.
  intros Hin Hp. unfold ProductList.requestParams.
  rewrite getProducts_params_pagination. apply elem_of_app. left.
  unfold ProductApi.getProducts_params at 1. rewrite forEach_appendFilter. cbn [app].
  assert ((key, Js.String_ digits value)
          ∈ (fun e : string * Js.value => (e.1, Js.String_ digits e.2))
              <$> filter (fun e => Js.is_present e.2) (Js.Object_entries (ProductList.filters s)))
    as Hfilter.
  { apply list_elem_of_fmap. exists (key, value). split; [done|].
    apply list_elem_of_filter. split; [|done]. cbn. by rewrite Hp. }
  unfold ProductApi.append, push.
  repeat match goal with |- context [if ?c then _ else _] => destruct c end;
    rewrite ?elem_of_app; auto.
Qed.

(** X7. A filter changed in the panel to a value that is present, then
    applied, is sent with the next list request under its key with that
    value; every other filter of the panel that is present is still sent;
    and the request is for page 1. *)
Theorem applied_filter_is_requested (digits : Q -> string) (s : ProductList.State)
    (localFilters : Js.object) (key : string) (value : Js.value) :
  Js.is_present value = true ->
  let s' :=
    ProductFilters.applyFilters
      (ProductFilters.handleFilterChange key value localFilters) s in
  (key, Js.String_ digits value) ∈ ProductList.requestParams digits s' /\
  (forall other value',
     other <> key ->
     JsObject.get localFilters other = Some value' ->
     Js.is_present value' = true ->
     (other, Js.String_ digits value') ∈ ProductList.requestParams digits s') /\
  ProductList.currentPage s' = 1.
Proof.
  intros Hp s'. split; [|split; [|reflexivity]].
  - apply requestParams_filters; [|done].
    apply get_elem_of, get_set_eq.
  - intros other value' Hne Hget Hp'. apply requestParams_filters; [|done].
    apply get_elem_of.
    change (JsObject.get (JsObject.set localFilters key value) other = Some value').
    by rewrite get_set_ne.
Qed.

Lemma applied_filter_is_requested_witness :
  Js.is_present (Js.VBool false) = true /\
  ("in_stock", "false")
  ∈ ProductList.requestParams (fun _ => "")
      (ProductFilters.applyFilters
         (ProductFilters.handleFilterChange "in_stock" (Js.VBool false)
            ProductFilters.clearedFilters)
         (ProductList.mkState ProductList.grid [] "title" asc 3 12)).
Proof.
  split; [reflexivity|].
  exact (proj1 (applied_filter_is_requested (fun _ => "")
                  (ProductList.mkState ProductList.grid [] "title" asc 3 12)
                  ProductFilters.clearedFilters "in_stock" (Js.VBool false) eq_refl)).
Defined.

Lemma isActive_false_iff (value : Js.value) :
  ProductFilters.isActive value = false <->
  value = Js.VStr "" \/ value = Js.VBool false \/
  exists q, value = Js.VNum (Js.Num q) /\ (q == 0)%Q.
Proof.
  destruct value as [| |b|n|s]; cbn.
  - split; [discriminate | intros [H|[H|(q & H & _)]]; discriminate].
  - split; [discriminate | intros [H|[H|(q & H & _)]]; discriminate].
  - destruct b; cbn.
    + split; [discriminate | intros [H|[H|(q & H & _)]]; discriminate].
    + split; [intros _; right; by left | done].
  - destruct n as [q| | |]; cbn;
      try (split; [discriminate | intros [H|[H|(q' & H & _)]]; discriminate]).
    destruct (Qeq_bool q 0) eqn:E; cbn.
    + apply Qeq_bool_iff in E. split; [intros _; right; right; by exists q | done].
    + split; [discriminate|]. intros [H|[H|(q' & [= <-] & H)]]; try discriminate.
      apply Qeq_bool_iff in H. congruence.
  - destruct s as [|c s]; cbn.
    + split; [intros _; by left | done].
    + split; [discriminate|].
      intros [H|[H|(q & H & _)]]; discriminate.
Qed.

(** X8. The panel reports no active filter exactly when every value of the
    filters is the empty string, [false] or the number 0; a value of
    [undefined] or [null] counts as active. *)
Theorem hasActiveFilters_false_iff (filters : Js.object) :
  ProductFilters.hasActiveFilters filters = false <->
  (forall key value,
     (key, value) ∈ filters ->
     value = Js.VStr "" \/ value = Js.VBool false \/
     exists q, value = Js.VNum (Js.Num q) /\ (q == 0)%Q).
Proof.
  unfold ProductFilters.hasActiveFilters, JsObject.values.
  induction filters as [|[k v] filters IH].
  - split; [|done]. intros _ key value Hin. by apply elem_of_nil in Hin.
  - rewrite fmap_cons. cbn [existsb snd]. rewrite orb_false_iff, IH, isActive_false_iff.
    split.
    + intros [Hv Hrest] key value [[= -> ->]|Hin]%elem_of_cons; [done | eauto].
    + intros Hall. split.
      * apply (Hall k v), list_elem_of_here.
      * intros key value Hin. apply (Hall key value). by apply list_elem_of_further.
Qed.

(** X9. After "Clear All" the list view asks for page 1 with the sort and
    page size it had and with no filter parameter at all, while the
    cleared filters still count as active, their [undefined] values being
    neither the empty string, [false] nor 0. *)
Theorem clearFilters_request (digits : Q -> string) (s : ProductList.State) :
  let s' := (ProductFilters.clearFilters s).2 in
  ProductList.requestParams digits s'
  = ProductApi.getProducts_params digits None
      (Some (ProductList.sortParams s))
      (Some (ProductPagination.mk 1 (ProductList.pageSize s))) /\
  ProductList.filters s' = (ProductFilters.clearFilters s).1 /\
  ProductFilters.hasActiveFilters (ProductList.filters s') = true.
Proof. intros s'. split; [reflexivity | split; reflexivity]. Qed.

Lemma Number_toString_zero (digits : Q -> string) (q : Q) :
  (q == 0)%Q -> Js.Number_toString digits (Js.Num q) = "0".
Proof.
  destruct q as [n d]. unfold Qeq. cbn [Qnum Qden]. intros Hq.
  assert (n = 0) as -> by lia.
  unfold Js.Number_toString, Js.isSmallInteger. cbn [Qnum Qden].
  rewrite Z.mod_0_l by lia. rewrite Z.div_0_l by lia.
  replace (Js.Qlt_bool (Qabs (0 # d)) (inject_Z (10 ^ 21))) with true; [reflexivity|].
  symmetry. apply Qlt_bool_iff. unfold Qlt. cbn. lia.
Qed.

(** X10. Filters the panel reports as not active can still constrain the
    request: every parameter they contribute has the value "false" or
    "0" (the empty strings are dropped, [false] and 0 are sent). *)
Theorem inactive_filters_still_sent (digits : Q -> string) (filters : Js.object)
    (name value : string) :
  ProductFilters.hasActiveFilters filters = false ->
  (name, value) ∈ ProductApi.getProducts_params digits (Some filters) None None ->
  value = "false" \/ value = "0".
Proof.
  intros Hinactive. rewrite hasActiveFilters_false_iff in Hinactive.
  unfold ProductApi.getProducts_params. rewrite forEach_appendFilter. cbn [app].
  intros ([k v] & [= -> ->] & [Hp Hin]%list_elem_of_filter)%list_elem_of_fmap.
  cbn [fst snd] in *.
  destruct (Hinactive k v Hin) as [->|[->|(q & -> & Hq)]].
  - by destruct Hp.
  - by left.
  - right. cbn. by apply Number_toString_zero.
Qed.

Lemma inactive_filters_still_sent_witness :
  ProductFilters.hasActiveFilters
    [("search", Js.VStr ""); ("in_stock", Js.VBool false); ("min_rating", Js.VNum (Js.Num 0))]
  = false /\
  ProductApi.getProducts_params (fun _ => "")
    (Some [("search", Js.VStr ""); ("in_stock", Js.VBool false);
           ("min_rating", Js.VNum (Js.Num 0))]) None None
  = [("in_stock", "false"); ("min_rating", "0")] /\
  ("false" = "false" \/ "false" = "0").
Proof.
  split; [reflexivity | split; [reflexivity|]].
  apply (inactive_filters_still_sent (fun _ => "")
           [("search", Js.VStr ""); ("in_stock", Js.VBool false);
            ("min_rating", Js.VNum (Js.Num 0))] "in_stock" "false" eq_refl).
  apply list_elem_of_here.
Defined.

(** * Further properties of the product form *)

(** X11. The edit form opened on a product that meets the invariant of the
    data model, with a visible title and description and a category, and
    submitted as it is, passes validation and sends one update for that
    product.  The update carries the product's title, description, price,
    discount, category, rating and stock unchanged; brand and thumbnail
    only when they are not empty; and the images as one string joined by
    a comma and a space, only when that string is not empty. *)
Theorem edit_unchanged_submits_product (p : Product.Product) :
  Product.invariant p ->
  Js.hasVisibleChar (Product.title p) = true ->
  Js.hasVisibleChar (Product.description p) = true ->
  Product.category p <> "" ->
  let formData := ProductFormState.formOfProduct p in
  let payload := ProductForm.cleanData formData in
  ProductForm.validateForm formData = true /\
  ProductForm.handleSubmit ProductForm.edit (Some p) formData
  = [ProductApi.UpdateProduct (Product.id p) payload] /\
  payload !! "title" = Some (Js.VStr (Product.title p)) /\
  payload !! "description" = Some (Js.VStr (Product.description p)) /\
  payload !! "price" = Some (Js.VNum (Product.price p)) /\
  payload !! "discount_percentage" = Some (Js.VNum (Product.discount_percentage p)) /\
  payload !! "category" = Some (Js.VStr (Product.category p)) /\
  payload !! "rating" = Some (Js.VNum (Product.rating p)) /\
  payload !! "stock" = Some (Js.VNum (Product.stock p)) /\
  payload !! "brand"
  = (if Js.truthy_string (Product.brand p) then Some (Js.VStr (Product.brand p)) else None) /\
  payload !! "thumbnail"
  = (if Js.truthy_string (Product.thumbnail p) then Some (Js.VStr (Product.thumbnail p))
     else None) /\
  payload !! "images"
  = (if Js.truthy_string (JsObject.join ", " (Product.images p))
     then Some (Js.VStr (JsObject.join ", " (Product.images p))) else None).
Proof.
  intros (a & d & r & s & Ha & Hd & Hr & Hs & Hapos & Hd0 & Hd100 & Hr0 & Hr5 & Hs0)
         Htitle Hdesc Hcat formData payload.
  assert (FormSpec.invariants formData) as Hinv.
  { split; [exists a; by split|].
    split; [right; exists d; cbn; by rewrite Hd|].
    split; [right; exists r; cbn; by rewrite Hr | exists s; by split]. }
  assert (FormSpec.required_filled formData) as Hreq by done.
  assert (ProductForm.validateForm formData = true) as Hvalid.
  { apply validateForm_true_iff. by apply newErrors_empty. }
  assert (forall s, Js.hasVisibleChar s = true -> Js.is_present (Js.VStr s) = true) as Hvis.
  { intros [|c rest]; [discriminate | done]. }
  split; [exact Hvalid|].
  split; [unfold ProductForm.handleSubmit; by rewrite Hvalid|].
  subst payload.
  repeat split.
  - rewrite (cleanData_fields formData "title" (Js.VStr (Product.title p)));
      [by rewrite Hvis | set_solver].
  - rewrite (cleanData_fields formData "description" (Js.VStr (Product.description p)));
      [by rewrite Hvis | set_solver].
  - by rewrite (cleanData_fields formData "price" (Js.VNum (Product.price p))) by set_solver.
  - by rewrite (cleanData_fields formData "discount_percentage"
                  (Js.VNum (Product.discount_percentage p))) by set_solver.
  - rewrite (cleanData_fields formData "category" (Js.VStr (Product.category p)));
      [|set_solver].
    cbn. by destruct (String.eqb_spec (Product.category p) "").
  - by rewrite (cleanData_fields formData "rating" (Js.VNum (Product.rating p))) by set_solver.
  - by rewrite (cleanData_fields formData "stock" (Js.VNum (Product.stock p))) by set_solver.
  - rewrite (cleanData_fields formData "brand"
               (Js.VStr (if Js.truthy_string (Product.brand p) then Product.brand p else "")));
      [|set_solver].
    unfold Js.truthy_string, Js.is_present.
    destruct (String.eqb (Product.brand p) "") eqn:E; cbn [negb]; [done|].
    by rewrite E.
  - by rewrite (cleanData_fields formData "thumbnail" (Js.VStr (Product.thumbnail p)))
      by set_solver.
  - by rewrite (cleanData_fields formData "images"
                  (Js.VStr (JsObject.join ", " (Product.images p)))) by set_solver.
Qed.

Lemma edit_unchanged_submits_product_witness :
  Product.invariant (Sample.product (Js.Num 25) (Js.Num 10)) /\
  ProductForm.validateForm
    (ProductFormState.formOfProduct (Sample.product (Js.Num 25) (Js.Num 10))) = true /\
  ProductForm.cleanData
    (ProductFormState.formOfProduct (Sample.product (Js.Num 25) (Js.Num 10))) !! "brand"
  = Some (Js.VStr "Acme") /\
  ProductForm.cleanData
    (ProductFormState.formOfProduct (Sample.product (Js.Num 25) (Js.Num 10))) !! "images"
  = None.
Proof.
  assert (Product.invariant (Sample.product (Js.Num 25) (Js.Num 10))) as Hinv.
  { exists 25%Q, 10%Q, 4%Q, 3%Q. by repeat split. }
  destruct (edit_unchanged_submits_product (Sample.product (Js.Num 25) (Js.Num 10))
              Hinv eq_refl eq_refl) as (Hvalid & _ & _ & _ & _ & _ & _ & _ & _ & Hbrand & _ & Himages).
  { discriminate. }
  split; [exact Hinv | split; [exact Hvalid | split; [exact Hbrand | exact Himages]]].
Defined.

Lemma lookup_if_insert_Some {V} (c : bool) (k k' : string) (x y : V) (m : gmap string V) :
  (if c then <[k' := x]> m else m) !! k = Some y -> k = k' \/ m !! k = Some y.
Proof.
  destruct c; [|by right].
  destruct (decide (k' = k)) as [->|Hne]; [by left|].
  rewrite lookup_insert_ne by done. by right.
Qed.

(** X12. Validation reports errors under the names of the seven fields it
    checks and under no other: brand, thumbnail and images are never the
    reason a form is rejected. *)
Theorem newErrors_only_checked_fields (formData : ProductCreate.ProductCreate)
    (key msg : string) :
  ProductForm.newErrors formData !! key = Some msg ->
  key ∈ ["title"; "description"; "price"; "discount_percentage"; "category";
         "stock"; "rating"].
Proof.
  unfold ProductForm.newErrors. cbv zeta. intros H.
  repeat (apply lookup_if_insert_Some in H as [->|H]; [set_solver|]).
  by rewrite lookup_empty in H.
Qed.

Lemma newErrors_only_checked_fields_witness :
  ProductForm.newErrors Sample.negativePriceForm !! "price"
  = Some "Price must be greater than 0" /\
  "price" ∈ ["title"; "description"; "price"; "discount_percentage"; "category";
             "stock"; "rating"].
Proof.
  assert (ProductForm.newErrors Sample.negativePriceForm !! "price"
          = Some "Price must be greater than 0") as Herr by (by vm_compute).
  split; [exact Herr|].
  exact (newErrors_only_checked_fields Sample.negativePriceForm "price" _ Herr).
Defined.

(** * A whole submission of the form *)

Lemma OnSuccess_not_in_failed (call : ProductApi.Call) (t : Toast) :
  ProductFormState.OnSuccess
  ∉ [ProductFormState.Request call; ProductFormState.ShowToast t].
Proof.
  rewrite !elem_of_cons, elem_of_nil. intros [H|[H|[]]]; discriminate.
Qed.

(** X13. A submission makes exactly the calls [handleSubmit] decides on,
    at most one; it signals success exactly when the form is valid and the
    client fulfils every call made; and it never leaves the form loading
    once a valid form has been handled. *)
Theorem submission_calls_and_success
    (client : ProductApi.Call -> Js.Promise Product.Product)
    (mode : ProductForm.Mode) (product : option Product.Product)
    (st : ProductFormState.State) :
  let result := ProductFormState.handleSubmit client mode product st in
  let calls := ProductForm.handleSubmit mode product (ProductFormState.formData st) in
  ProductFormState.requests result.2 = calls /\
  (length calls <= 1)%nat /\
  (ProductFormState.OnSuccess ∈ result.2 <->
   ProductForm.validateForm (ProductFormState.formData st) = true /\
   forall call, call ∈ calls -> exists product', client call = Js.Fulfilled product') /\
  (ProductForm.validateForm (ProductFormState.formData st) = true ->
   ProductFormState.isLoading result.1 = false).
Proof.
  intros result calls. subst result calls.
  unfold ProductFormState.handleSubmit, ProductForm.handleSubmit.
  destruct (ProductForm.validateForm (ProductFormState.formData st)) eqn:Hvalid; cbn [negb].
  2:{ cbn [fst snd ProductFormState.requests length]. split; [done | split; [lia | split; [|done]]].
      split; [intros H; by apply elem_of_nil in H | by intros [? _]]. }
  destruct mode; [|destruct product as [p|]].
  - destruct (client (ProductApi.CreateProduct (ProductFormState.formData st)))
      as [v|e] eqn:Hc;
      cbn [fst snd ProductFormState.requests ProductFormState.failed length];
      (split; [done | split; [lia | split; [|done]]]).
    + split; [|intros _; set_solver].
      intros _. split; [done|]. intros call ->%list_elem_of_singleton. eauto.
    + split; [intros H; by apply OnSuccess_not_in_failed in H|].
      intros [_ H]. destruct (H _ (list_elem_of_here _ _)) as [v Hv]. congruence.
  - destruct (client (ProductApi.UpdateProduct (Product.id p)
                        (ProductForm.cleanData (ProductFormState.formData st))))
      as [v|e] eqn:Hc;
      cbn [fst snd ProductFormState.requests ProductFormState.failed length];
      (split; [done | split; [lia | split; [|done]]]).
    + split; [|intros _; set_solver].
      intros _. split; [done|]. intros call ->%list_elem_of_singleton. eauto.
    + split; [intros H; by apply OnSuccess_not_in_failed in H|].
      intros [_ H]. destruct (H _ (list_elem_of_here _ _)) as [v Hv]. congruence.
  - cbn [fst snd ProductFormState.requests length].
    split; [done | split; [lia | split; [|done]]].
    split; [|intros _; set_solver].
    intros _. split; [done|]. intros call H. by apply elem_of_nil in H.
Qed.

Lemma submission_calls_and_success_witness :
  ProductForm.validateForm Sample.form = true /\
  ProductFormState.isLoading
    (ProductFormState.handleSubmit
       (ProductFormState.client (fun _ _ => "") (Sample.answering 404 "Not Found"))
       ProductForm.create None
       (ProductFormState.mkState Sample.form ∅ false true)).1 = false.
Proof.
  assert (ProductForm.validateForm Sample.form = true) as Hvalid by (by vm_compute).
  split; [exact Hvalid|].
  exact (proj2 (proj2 (proj2 (submission_calls_and_success
           (ProductFormState.client (fun _ _ => "") (Sample.answering 404 "Not Found"))
           ProductForm.create None
           (ProductFormState.mkState Sample.form ∅ false true)))) Hvalid).
Defined.

(** X14. A submission that does not signal success loses nothing the user
    typed and leaves the dialog as it was; one that signals success leaves
    the form closed, empty and without errors. *)
Theorem submission_keeps_input_on_failure
    (client : ProductApi.Call -> Js.Promise Product.Product)
    (mode : ProductForm.Mode) (product : option Product.Product)
    (st : ProductFormState.State) :
  let result := ProductFormState.handleSubmit client mode product st in
  (ProductFormState.OnSuccess ∉ result.2 ->
   ProductFormState.formData result.1 = ProductFormState.formData st /\
   ProductFormState.isOpen result.1 = ProductFormState.isOpen st /\
   ProductFormState.errors result.1
   = ProductForm.newErrors (ProductFormState.formData st)) /\
  (ProductFormState.OnSuccess ∈ result.2 ->
   result.1
   = ProductFormState.mkState ProductFormState.initialFormData ∅ false false).
Proof.
  intros result. subst result. unfold ProductFormState.handleSubmit.
  destruct (ProductForm.validateForm (ProductFormState.formData st)); cbn [negb].
  2:{ cbn. split; [done|]. intros H. by apply elem_of_nil in H. }
  destruct mode; [|destruct product as [p|]].
  - destruct (client _) as [v|e]; cbn.
    + split; [intros H; destruct H; set_solver | done].
    + split; [done|]. intros H. by apply OnSuccess_not_in_failed in H.
  - destruct (client _) as [v|e]; cbn.
    + split; [intros H; destruct H; set_solver | done].
    + split; [done|]. intros H. by apply OnSuccess_not_in_failed in H.
  - cbn. split; [intros H; destruct H; set_solver | done].
Qed.

Lemma submission_keeps_input_on_failure_witness :
  let result :=
    ProductFormState.handleSubmit
      (ProductFormState.client (fun _ _ => "") (Sample.answering 404 "Not Found"))
      ProductForm.create None (ProductFormState.mkState Sample.form ∅ false true) in
  (ProductFormState.OnSuccess ∉ result.2) /\
  ProductFormState.formData result.1 = Sample.form /\
  ProductFormState.isOpen result.1 = true.
Proof.
  intros result.
  assert (ProductFormState.OnSuccess ∉ result.2) as Hno.
  { apply (OnSuccess_not_in_failed (ProductApi.CreateProduct Sample.form)
             (mkToast "Failed to create product" "API request failed: 404 Not Found" "error")). }
  destruct (proj1 (submission_keeps_input_on_failure
                     (ProductFormState.client (fun _ _ => "") (Sample.answering 404 "Not Found"))
                     ProductForm.create None
                     (ProductFormState.mkState Sample.form ∅ false true)) Hno)
    as (Hdata & Hopen & _).
  split; [exact Hno | split; [exact Hdata | exact Hopen]].
Defined.

(** * Deleting a product *)

(** X15. Deleting never leaves the dialog loading.  It signals success, and
    closes the dialog, exactly when the request was answered with a status
    in 200-299 whose body could be read as JSON; in every other case the
    dialog stays as it was and the one thing shown is an error toast with
    the message of the rejection, which for a status outside 200-299 is
    "API request failed:" with the status code and text. *)
Theorem handleDelete_outcome {T} (fetch : ProductApi.Fetch T) (product : Product.Product)
    (st : DeleteProduct.State) :
  let url := ProductApi.API_BASE_URL +:+ ("/products/" +:+ pretty (Product.id product)) in
  let options := ProductApi.mkInit (Some "DELETE") None in
  let result := DeleteProduct.handleDelete fetch product st in
  DeleteProduct.isLoading result.1 = false /\
  (DeleteProduct.OnSuccess ∈ result.2 <->
   exists response body,
     fetch url options = ProductApi.FetchResolved response /\
     ProductApi.ok response = true /\
     ProductApi.json response = Js.Fulfilled body) /\
  (DeleteProduct.OnSuccess ∈ result.2 -> DeleteProduct.isOpen result.1 = false) /\
  (DeleteProduct.OnSuccess ∉ result.2 ->
   DeleteProduct.isOpen result.1 = DeleteProduct.isOpen st /\
   exists error,
     ProductApi.deleteProduct fetch (Product.id product) = Js.Rejected error /\
     result.2
     = [DeleteProduct.ShowToast
          (mkToast "Failed to delete product" (Js.message error) "error")]) /\
  (forall response,
     fetch url options = ProductApi.FetchResolved response ->
     ProductApi.ok response = false ->
     result.2
     = [DeleteProduct.ShowToast
          (mkToast "Failed to delete product"
             ("API request failed: " +:+ pretty (ProductApi.status response)
              +:+ " " +:+ ProductApi.statusText response)
             "error")]).
Proof.
  intros url options result. subst result.
  unfold DeleteProduct.handleDelete, ProductApi.deleteProduct, ProductApi.request.
  fold url. fold options.
  destruct (fetch url options) as [e|response] eqn:Hf.
  - cbn. split; [done | split; [|split; [|split]]].
    + rewrite list_elem_of_singleton. split; [discriminate|].
      intros (response & body & H & _). discriminate.
    + rewrite list_elem_of_singleton. discriminate.
    + intros _. split; [done|]. by exists e.
    + intros response H. discriminate.
  - destruct (ProductApi.ok response) eqn:Hok; cbn [negb].
    + destruct (ProductApi.json response) as [body|e] eqn:Hj; cbn.
      * split; [done | split; [|split; [|split]]].
        -- split; [|intros _; set_solver].
           intros _. by exists response, body.
        -- done.
        -- intros H. destruct H. set_solver.
        -- intros response' [= <-] Hok'. congruence.
      * split; [done | split; [|split; [|split]]].
        -- rewrite list_elem_of_singleton. split; [discriminate|].
           intros (response' & body & [= <-] & _ & Hj'). congruence.
        -- rewrite list_elem_of_singleton. discriminate.
        -- intros _. split; [done|]. by exists e.
        -- intros response' [= <-] Hok'. congruence.
    + cbn. split; [done | split; [|split; [|split]]].
      * rewrite list_elem_of_singleton. split; [discriminate|].
        intros (response' & body & [= <-] & Hok' & _). congruence.
      * rewrite list_elem_of_singleton. discriminate.
      * intros _. split; [done|]. eexists. split; reflexivity.
      * by intros response' [= <-] _.
Qed.

Lemma handleDelete_outcome_witness :
  let result :=
    DeleteProduct.handleDelete (Sample.answering 404 "Not Found")
      (Sample.product (Js.Num 25) (Js.Num 10)) (DeleteProduct.mkState false true) in
  ProductApi.ok
    (ProductApi.mkResponse (T := Product.Product) 404 "Not Found"
       (Js.Rejected (Js.mkError "SyntaxError" "Unexpected end of JSON input"))) = false /\
  result.2
  = [DeleteProduct.ShowToast
       (mkToast "Failed to delete product" "API request failed: 404 Not Found" "error")] /\
  DeleteProduct.isOpen result.1 = true.
Proof.
  intros result.
  destruct (handleDelete_outcome (Sample.answering 404 "Not Found")
              (Sample.product (Js.Num 25) (Js.Num 10)) (DeleteProduct.mkState false true))
    as (_ & _ & _ & _ & Hstatus).
  split; [reflexivity|].
  split; [exact (Hstatus _ eq_refl eq_refl) | reflexivity].
Defined.

(** * The rating stars *)

Lemma star_filled (star : Z) (q : Q) :
  Js.le (Js.Num (inject_Z star)) (Js.Num q) = true <-> star <= Qfloor q.
Proof.
  cbn. unfold Js.Qlt_bool. rewrite negb_involutive, Qle_bool_iff. split.
  - intros H. rewrite <- (Qfloor_Z star). by apply Qfloor_resp_le.
  - intros H. apply Qle_trans with (inject_Z (Qfloor q)); [|apply Qfloor_le].
    by rewrite <- Zle_Qle.
Qed.

Lemma star_filled_bool (star : Z) (q : Q) :
  Js.le (Js.Num (inject_Z star)) (Js.Num q) = (star <=? Qfloor q).
Proof.
  destruct (Z.leb_spec star (Qfloor q)) as [H|H].
  - by apply star_filled.
  - apply not_true_is_false. intros H'%star_filled. lia.
Qed.

(** X16. For a finite rating the filled stars are the first [k] of the
    five, where [k] is the rating rounded down and kept within 0 and 5;
    a rating that is not a number fills none. *)
Theorem stars_filled_prefix (q : Q) :
  let k := Z.to_nat (Z.min 5 (Z.max 0 (Qfloor q))) in
  Rating.stars (Js.Num q) = replicate k true ++ replicate (5 - k) false /\
  Rating.stars Js.NaN = replicate 5 false.
Proof.
  intros k. split; [|reflexivity]. subst k.
  unfold Rating.stars. rewrite !fmap_cons, fmap_nil, !star_filled_bool.
  assert (Qfloor q <= 0 \/ Qfloor q = 1 \/ Qfloor q = 2 \/ Qfloor q = 3
          \/ Qfloor q = 4 \/ 5 <= Qfloor q) as Hcases by lia.
  destruct Hcases as [H | [H | [H | [H | [H | H] ] ] ] ].
  - replace (Z.to_nat (Z.min 5 (Z.max 0 (Qfloor q)))) with 0%nat by lia.
    repeat match goal with |- context [?a <=? ?b] => destruct (Z.leb_spec a b); try lia end.
    reflexivity.
  - rewrite H. reflexivity.
  - rewrite H. reflexivity.
  - rewrite H. reflexivity.
  - rewrite H. reflexivity.
  - replace (Z.to_nat (Z.min 5 (Z.max 0 (Qfloor q)))) with 5%nat by lia.
    repeat match goal with |- context [?a <=? ?b] => destruct (Z.leb_spec a b); try lia end.
    reflexivity.
Qed.

(** * The stock line and the cart button *)

(** X17. For a product that meets the invariant of the data model the cart
    button is disabled exactly when the stock line reads "Out of stock",
    and then, unless the product is already in the cart, the button reads
    "Out of Stock" too. *)
Theorem cart_disabled_iff_out_of_stock (p : Product.Product) :
  Product.invariant p ->
  (Stock.cartDisabled p = true <-> Stock.stockText p = Stock.OutOfStock) /\
  (Stock.cartDisabled p = true -> Stock.cartText false p = Stock.CartOutOfStock) /\
  (Stock.cartDisabled p = false -> Stock.cartText false p = Stock.AddToCart).
Proof.
  intros (a & d & r & s & _ & _ & _ & Hs & _ & _ & _ & _ & _ & Hs0).
  unfold Stock.cartDisabled, Stock.stockText, Stock.cartText. rewrite Hs. cbn.
  destruct (Qeq_bool s 0) eqn:E.
  - apply Qeq_bool_iff in E.
    assert (Js.Qlt_bool 0 s = false) as -> by (apply Qlt_bool_false_iff; lra).
    by repeat split.
  - assert (Js.Qlt_bool 0 s = true) as ->.
    { apply Qlt_bool_iff. apply Qle_lt_or_eq in Hs0 as [H|H]; [done|].
      exfalso. assert (Qeq_bool s 0 = true) by (apply Qeq_bool_iff; by symmetry).
      congruence. }
    by repeat split.
Qed.

Lemma cart_disabled_iff_out_of_stock_witness :
  Product.invariant (Sample.product (Js.Num 25) (Js.Num 10)) /\
  Stock.cartDisabled (Sample.product (Js.Num 25) (Js.Num 10)) = false /\
  Stock.cartText false (Sample.product (Js.Num 25) (Js.Num 10)) = Stock.AddToCart.
Proof.
  assert (Product.invariant (Sample.product (Js.Num 25) (Js.Num 10))) as Hinv.
  { exists 25%Q, 10%Q, 4%Q, 3%Q. by repeat split. }
  destruct (cart_disabled_iff_out_of_stock _ Hinv) as (_ & _ & Hadd).
  split; [exact Hinv | split; [reflexivity | exact (Hadd eq_refl)]].
Defined.

(** * The theme *)

(** X18. The theme survives a reload: what the effect stores for a theme is
    read back as that theme, while no stored item, an empty one, or any
    string that is not a theme gives the system theme. *)
Theorem theme_survives_reload (theme : ThemeContext.Theme) (systemPrefersDark : bool)
    (saved : string) :
  ThemeContext.initialTheme
    (Some (ThemeContext.storedTheme (ThemeContext.applyTheme theme systemPrefersDark)))
  = theme /\
  ThemeContext.initialTheme None = ThemeContext.system /\
  ((forall t, saved <> ThemeContext.themeText t) ->
   ThemeContext.initialTheme (Some saved) = ThemeContext.system).
Proof.
  split; [by destruct theme | split; [done|]].
  intros Hnot. unfold ThemeContext.initialTheme, ThemeContext.asTheme. cbn [existsb].
  destruct (String.eqb_spec saved "light") as [->|_];
    [by destruct (Hnot ThemeContext.light)|].
  destruct (String.eqb_spec saved "dark") as [->|_];
    [by destruct (Hnot ThemeContext.dark)|].
  destruct (String.eqb_spec saved "system") as [->|_];
    [by destruct (Hnot ThemeContext.system)|].
  by destruct (Js.truthy_string saved).
Qed.

Lemma theme_survives_reload_witness :
  (forall t, "blue" <> ThemeContext.themeText t) /\
  ThemeContext.initialTheme (Some "blue") = ThemeContext.system.
Proof.
  assert (forall t, "blue" <> ThemeContext.themeText t) as Hnot by (by intros []).
  split; [exact Hnot|].
  exact (proj2 (proj2 (theme_survives_reload ThemeContext.light false "blue")) Hnot).
Defined.

(** X19. The toggle goes round the three themes: it always changes the
    theme, three toggles come back to the start, and from any theme any
    other is one or two toggles away.  After the effect has run, [isDark]
    is true exactly when the colour mode is dark. *)
Theorem toggleTheme_cycle (theme other : ThemeContext.Theme) (systemPrefersDark : bool) :
  ThemeContext.toggleTheme theme <> theme /\
  ThemeContext.toggleTheme (ThemeContext.toggleTheme (ThemeContext.toggleTheme theme)) = theme /\
  (other = theme \/ other = ThemeContext.toggleTheme theme
   \/ other = ThemeContext.toggleTheme (ThemeContext.toggleTheme theme)) /\
  (ThemeContext.isDark (ThemeContext.applyTheme theme systemPrefersDark) = true <->
   ThemeContext.colorMode (ThemeContext.applyTheme theme systemPrefersDark) = "dark").
Proof.
  split; [by destruct theme|].
  split; [by destruct theme|].
  split; [destruct theme, other; auto|].
  destruct theme, systemPrefersDark; cbn; split; done.
Qed.

(** * Sorting in the list view *)

(** X20. Choosing a sort field never touches the filters, the view mode or
    the page size.  A new field is sorted ascending; the field already in
    use has its order flipped and keeps being the field; and choosing the
    field in use twice restores the order. *)
Theorem handleSortChange_toggle (field : string) (s : ProductList.State) :
  let s' := ProductList.handleSortChange field s in
  ProductList.filters s' = ProductList.filters s /\
  ProductList.viewMode s' = ProductList.viewMode s /\
  ProductList.pageSize s' = ProductList.pageSize s /\
  ProductList.sortBy s' = field /\
  (field <> ProductList.sortBy s -> ProductList.sortOrder s' = asc) /\
  (field = ProductList.sortBy s -> ProductList.sortOrder s' <> ProductList.sortOrder s) /\
  (field = ProductList.sortBy s ->
   ProductList.sortOrder (ProductList.handleSortChange field s') = ProductList.sortOrder s).
Proof.
  intros s'. subst s'. unfold ProductList.handleSortChange.
  destruct (String.eqb_spec (ProductList.sortBy s) field) as [<-|Hne].
  - cbn. rewrite String.eqb_refl. cbn.
    repeat split; try done; by destruct (ProductList.sortOrder s).
  - cbn. repeat split; first [done | by intros ->].
Qed.

Lemma handleSortChange_toggle_witness :
  "price" <> "title" /\
  ProductList.sortOrder
    (ProductList.handleSortChange "price"
       (ProductList.mkState ProductList.grid [] "title" desc 3 12)) = asc /\
  ProductList.sortOrder
    (ProductList.handleSortChange "title"
       (ProductList.handleSortChange "title"
          (ProductList.mkState ProductList.grid [] "title" desc 3 12))) = desc.
Proof.
  destruct (handleSortChange_toggle "price"
              (ProductList.mkState ProductList.grid [] "title" desc 3 12))
    as (_ & _ & _ & _ & Hnew & _).
  destruct (handleSortChange_toggle "title"
              (ProductList.mkState ProductList.grid [] "title" desc 3 12))
    as (_ & _ & _ & _ & _ & _ & Htwice).
  split; [discriminate | split; [apply Hnew; discriminate | exact (Htwice eq_refl)]].
Defined.

(** * More on validation, the detail view and the page window *)

(** X21. A numeric field that holds NaN, as a cleared number input leaves
    it, gets no error: validation records nothing for a price, stock,
    discount or rating that is NaN. *)
Theorem validateForm_accepts_NaN (formData : ProductCreate.ProductCreate) :
  (ProductCreate.price formData = Js.NaN ->
   ProductForm.newErrors formData !! "price" = None) /\
  (ProductCreate.stock formData = Js.NaN ->
   ProductForm.newErrors formData !! "stock" = None) /\
  (ProductCreate.discount_percentage formData = Some Js.NaN ->
   ProductForm.newErrors formData !! "discount_percentage" = None) /\
  (ProductCreate.rating formData = Some Js.NaN ->
   ProductForm.newErrors formData !! "rating" = None).
Proof.
  pose proof (newErrors_lookup formData) as (_ & _ & Hp & Hd & _ & Hs & Hr).
  repeat split; intros H.
  - by rewrite Hp, H.
  - by rewrite Hs, H.
  - by rewrite Hd, H.
  - by rewrite Hr, H.
Qed.

Lemma validateForm_accepts_NaN_witness :
  ProductCreate.price Sample.clearedPriceForm = Js.NaN /\
  ProductForm.newErrors Sample.clearedPriceForm !! "price" = None /\
  ProductForm.validateForm Sample.clearedPriceForm = true.
Proof.
  split; [reflexivity|].
  split; [exact (proj1 (validateForm_accepts_NaN Sample.clearedPriceForm) eq_refl)|].
  by vm_compute.
Defined.


(** X23. Without pages the window is empty; with at least one page it
    holds page 1 and the last page, whatever the current page. *)
Theorem getPageNumbers_first_and_last (c t : Z) :
  (t <= 0 -> getPageNumbers c t = []) /\
  (1 <= t -> Page 1 ∈ getPageNumbers c t /\ Page t ∈ getPageNumbers c t).
Proof.
  split.
  - intros Ht. rewrite getPageNumbers_small by lia. by rewrite seqZ_nil.
  - intros Ht. destruct (Z.le_gt_cases t 5) as [Hs|Hl].
    + rewrite getPageNumbers_small by done.
      split; apply list_elem_of_fmap_2, elem_of_seqZ; lia.
    + rewrite getPageNumbers_shape by lia. rewrite !elem_of_app. split.
      * left. apply list_elem_of_here.
      * do 4 right. apply list_elem_of_here.
Qed.

Lemma getPageNumbers_first_and_last_witness :
  (0 <= 0 /\ getPageNumbers 1 0 = []) /\
  (1 <= 8 /\ Page 1 ∈ getPageNumbers 20 8 /\ Page 8 ∈ getPageNumbers 20 8).
Proof.
  split.
  - split; [lia | apply (proj1 (getPageNumbers_first_and_last 1 0)); lia].
  - split; [lia | apply (proj2 (getPageNumbers_first_and_last 20 8)); lia].
Defined.
